(** * Content-moderation workflow: a shallow embedding of [main.py] and
      [app.py], and the properties of its pipeline.

    The Python program threads one dictionary, [ModerationState], through a
    LangGraph workflow: [analyse_content], [classify_severity], the router
    [routing_decision] and one of the four resolvers [approve], [flag],
    [reject], [escalate]. [app.py] wraps an invocation of the compiled
    graph in a [try]/[except].

    Python strings are sequences of Unicode code points, dictionaries keep
    their insertion order, a dictionary key may be missing, and a node may
    raise; the embedding keeps all four. *)

From Stdlib Require Import List Bool Arith NArith ZArith Lia.
From Stdlib Require Import Ascii String DecimalString.
Import ListNotations.

Set Implicit Arguments.

(* ================================================================= *)
(** ** Python strings *)

Module PyStr.

(** A [str] is a list of code points; [len] is the length of that list. *)
Definition char := N.
Definition pystr := list char.

(** An ASCII literal of the source, read as code points. *)
Definition py (s : string) : pystr :=
  List.map N_of_ascii (list_ascii_of_string s).

Definition len (s : pystr) : Z := Z.of_nat (List.length s).

Fixpoint eqb (a b : pystr) : bool :=
  match a, b with
  | [], [] => true
  | x :: a', y :: b' => N.eqb x y && eqb a' b'
  | _, _ => false
  end.

(** [str.isspace] on one code point: the characters that [str.strip()] and
    [str.split()] without argument treat as white space. *)
Definition isspace (c : char) : bool :=
  ((9 <=? c) && (c <=? 13)          (* \t \n \v \f \r *)
   || (28 <=? c) && (c <=? 32)      (* FS GS RS US and the space *)
   || (c =? 133) || (c =? 160)      (* NEL, no-break space *)
   || (c =? 5760)                   (* U+1680 *)
   || (8192 <=? c) && (c <=? 8202)  (* U+2000 .. U+200A *)
   || (c =? 8232) || (c =? 8233)    (* U+2028, U+2029 *)
   || (c =? 8239) || (c =? 8287)    (* U+202F, U+205F *)
   || (c =? 12288))%N.              (* U+3000 *)

Fixpoint lstrip (s : pystr) : pystr :=
  match s with
  | [] => []
  | c :: rest => if isspace c then lstrip rest else s
  end.

Definition rstrip (s : pystr) : pystr := rev (lstrip (rev s)).

(** [not s] *)
Definition falsy (s : pystr) : bool :=
  match s with
  | [] => true
  | _ :: _ => false
  end.

(** [s.strip()] *)
Definition strip (s : pystr) : pystr := rstrip (lstrip s).

(** [s.split()]: runs of white space separate the words, and no empty word
    is produced. [word] holds the characters of the word being read, last
    one first. *)
Fixpoint split_from (word : pystr) (s : pystr) : list pystr :=
  match s with
  | [] => match word with [] => [] | _ => [rev word] end
  | c :: rest =>
      if isspace c
      then match word with
           | [] => split_from [] rest
           | _ => rev word :: split_from [] rest
           end
      else split_from (c :: word) rest
  end.

Definition split (s : pystr) : list pystr := split_from [] s.

Fixpoint startswith (s prefix : pystr) : bool :=
  match prefix, s with
  | [], _ => true
  | p :: prefix', c :: s' => N.eqb p c && startswith s' prefix'
  | _ :: _, [] => false
  end.

(** [sub in s] *)
Fixpoint contains (sub s : pystr) : bool :=
  startswith s sub ||
  match s with
  | [] => false
  | _ :: s' => contains sub s'
  end.

(** [any(p(x) for x in xs)] *)
Definition any {A} (p : A -> bool) (xs : list A) : bool := existsb p xs.

(** [str(n)] for an [int]. *)
Definition str_of_int (n : Z) : pystr := py (NilZero.string_of_int (Z.to_int n)).

(** [sep.join(parts)] *)
Fixpoint join (sep : pystr) (parts : list pystr) : pystr :=
  match parts with
  | [] => []
  | [p] => p
  | p :: rest => p ++ sep ++ join sep rest
  end.

(** The number of white-space-delimited tokens, said without building
    them: a token starts at every character that is not white space and
    that follows a white-space character or the beginning of the text.
    [after_space] tells whether the previous character was white space (or
    there was none). *)
Fixpoint count_token_starts (after_space : bool) (s : pystr) : nat :=
  match s with
  | [] => 0
  | c :: rest =>
      if isspace c then count_token_starts true rest
      else (if after_space then 1 else 0) + count_token_starts false rest
  end.

Definition token_count (s : pystr) : nat := count_token_starts true s.

(** [s] consists only of white space (the empty text included). *)
Definition blank (s : pystr) : bool := forallb isspace s.

End PyStr.
Import PyStr.

(* ================================================================= *)
(** ** Python values and dictionaries *)

Module PyDict.

(** The values the workflow stores under the keys of [metadata]. *)
Inductive pyvalue :=
| VNone
| VBool (b : bool)
| VInt (n : Z)
| VStr (s : pystr).

(** A [dict] with its insertion order: the keys of a dictionary are
    pairwise different, and the order is the one [items()] returns. *)
Definition pydict := list (pystr * pyvalue).

(** [d.get(k)] *)
Fixpoint get (d : pydict) (k : pystr) : option pyvalue :=
  match d with
  | [] => None
  | (k', v) :: rest => if PyStr.eqb k' k then Some v else get rest k
  end.

(** [d[k] = v]: an existing key keeps its place, a new one goes last. *)
Fixpoint set (d : pydict) (k : pystr) (v : pyvalue) : pydict :=
  match d with
  | [] => [(k, v)]
  | (k', v') :: rest =>
      if PyStr.eqb k' k then (k', v) :: rest else (k', v') :: set rest k v
  end.

(** [{**a, **b}]: the items of [a], then those of [b] stored one by one. *)
Definition merge (a b : pydict) : pydict :=
  fold_left (fun d kv => set d (fst kv) (snd kv)) b a.

(** [str(v)], as an f-string renders a value. *)
Definition str (v : pyvalue) : pystr :=
  match v with
  | VNone => py "None"
  | VBool true => py "True"
  | VBool false => py "False"
  | VInt n => str_of_int n
  | VStr s => s
  end.

End PyDict.
Import PyDict.

(* ================================================================= *)
(** ** Exceptions *)

(** What a call may raise. [Raised] stands for the exceptions of the
    libraries (a timeout or a connection error of the model client, a
    validation error of the structured output), with their class name and
    their message. *)
Inductive exn :=
| KeyError (key : pystr)
| Raised (class message : pystr).

Inductive result (A : Type) :=
| Ret (a : A)
| Raise (e : exn).
Arguments Raise {A} e.

Definition bind {A B} (r : result A) (k : A -> result B) : result B :=
  match r with
  | Ret a => k a
  | Raise e => Raise e
  end.

Declare Scope py_scope.
Delimit Scope py_scope with py.
Notation "x <- r ;; k" := (bind r (fun x => k))
  (at level 61, r at next level, right associativity) : py_scope.
Open Scope py_scope.

(** [str(e)]: a [KeyError] shows the [repr] of its key (written here for
    keys without quotes or escapes), the others their message. *)
Definition exn_str (e : exn) : pystr :=
  match e with
  | KeyError key => py "'" ++ key ++ py "'"
  | Raised _ message => message
  end.

(* ================================================================= *)
(** ** The state of the workflow *)

(** [typing.Optional]: [None] is Python's [None]. *)
Definition Optional (A : Type) := option A.

(** [ModerationState] is a [TypedDict]: a dictionary in which any of the
    five keys may be missing. The outer [option] of a field says whether
    the key is there. The dictionaries the nodes return, which hold only
    the keys they write, have the same type. *)
Record ModerationState := mkState {
  content : option pystr;
  severity : option (Optional pystr);
  action : option (Optional pystr);
  explanation : option (Optional pystr);
  metadata : option (Optional pydict)
}.

(** [state[key]] *)
Definition getitem {A} (field : option A) (key : string) : result A :=
  match field with
  | Some v => Ret v
  | None => Raise (KeyError (py key))
  end.

(** [state.get(key, default)] *)
Definition get_default {A} (field : option A) (default : A) : A :=
  match field with
  | Some v => v
  | None => default
  end.

(** [state.get(key)] *)
Definition get_or_none {A} (field : option (Optional A)) : Optional A :=
  get_default field None.

(** The keys of a state, in the order of the class. *)
Definition present {A} (field : option A) (key : string) : list pystr :=
  match field with
  | Some _ => [py key]
  | None => []
  end.

Definition keys (s : ModerationState) : list pystr :=
  present (content s) "content" ++ present (severity s) "severity"
  ++ present (action s) "action" ++ present (explanation s) "explanation"
  ++ present (metadata s) "metadata".

(** [value == literal] for an optional string. *)
Definition eq_literal (value : Optional pystr) (literal : string) : bool :=
  match value with
  | Some s => PyStr.eqb s (py literal)
  | None => false
  end.

(** An optional string inside an f-string. *)
Definition format (value : Optional pystr) : pystr :=
  match value with
  | Some s => s
  | None => py "None"
  end.

Definition newline : pystr := [10%N].

(* ================================================================= *)
(** ** main.py: the nodes *)

Definition analyse_content (state : ModerationState) : result ModerationState :=
  content <- getitem (content state) "content";;
  if falsy content || (len (strip content) =? 0)%Z
  then
    Ret {| content := None; severity := None; action := None;
           explanation := None;
           metadata := Some (Some [(py "error", VStr (py "Content is empty"))]) |}
  else
    let analysis_metadata :=
      [ (py "content_length", VInt (len content));
        (py "word_count", VInt (Z.of_nat (List.length (split content))));
        (py "has_urls",
         VBool (any (fun url => contains url content) [py "http://"; py "https://"])) ] in
    let prior := match get_or_none (metadata state) with
                 | Some ((_ :: _) as d) => d
                 | _ => []                      (* [... or {}] *)
                 end in
    Ret {| content := None; severity := None; action := None;
           explanation := None;
           metadata := Some (Some (merge prior analysis_metadata)) |}.

(** [SeverityClassification]: the structured output of the model. The
    [Literal] type of [severity] admits the four labels and nothing else;
    a response that does not validate never becomes an object of this
    class, the call raises instead. *)
Module SeverityClassification.

Inductive Literal := safe | questionable | inappropriate | harmful.

Record t := make { severity : Literal; explanation : pystr }.

Definition label (l : Literal) : pystr :=
  match l with
  | safe => py "safe"
  | questionable => py "questionable"
  | inappropriate => py "inappropriate"
  | harmful => py "harmful"
  end.

(** The validation of [severity] against the [Literal]. *)
Definition validate (s : pystr) : option Literal :=
  if PyStr.eqb s (py "safe") then Some safe
  else if PyStr.eqb s (py "questionable") then Some questionable
  else if PyStr.eqb s (py "inappropriate") then Some inappropriate
  else if PyStr.eqb s (py "harmful") then Some harmful
  else None.

End SeverityClassification.

(** [chain.invoke({"content": ..., "metadata": ...})]: the prompt and the
    model behind it are outside the program; the call returns a validated
    [SeverityClassification] or raises. *)
Definition Chain := pystr -> pystr -> result SeverityClassification.t.

(** [model.with_structured_output(SeverityClassification)], the chain of
    [main.py]: the answer of the model, a severity and an explanation,
    becomes an object of the class when the severity validates; otherwise
    the call raises the validation error of the library. That exception,
    whose class and text are the library's, is the parameter
    [validation_error], given the severity that was refused. An exception
    of the model itself goes through. *)
Definition with_structured_output (validation_error : pystr -> exn)
    (model : pystr -> pystr -> result (pystr * pystr)) : Chain :=
  fun content metadata =>
    answer <- model content metadata;;
    match SeverityClassification.validate (fst answer) with
    | Some l => Ret (SeverityClassification.make l (snd answer))
    | None => Raise (validation_error (fst answer))
    end.

(** Line 56 of [main.py]: the listing of the metadata handed to the model,
    or the marker when the metadata is [None] or empty. *)
Definition render_metadata (metadata : Optional pydict) : pystr :=
  match metadata with
  | Some ((_ :: _) as items) =>
      join newline
        (List.map (fun kv => py "- " ++ fst kv ++ py ": " ++ PyDict.str (snd kv)) items)
  | _ => py "No metadata available"
  end.

Definition classify_severity (chain : Chain) (state : ModerationState)
  : result ModerationState :=
  content <- getitem (content state) "content";;
  let metadata := get_default (metadata state) (Some []) in
  let metadata_str := render_metadata metadata in
  response <- chain content metadata_str;;
  Ret {| content := None;
         severity := Some (Some (SeverityClassification.label
                                   (SeverityClassification.severity response)));
         action := None;
         explanation := Some (Some (SeverityClassification.explanation response));
         metadata := None |}.

Definition routing_decision (state : ModerationState) : result pystr :=
  severity <- getitem (severity state) "severity";;
  if eq_literal severity "safe" then Ret (py "approve")
  else if eq_literal severity "questionable" then Ret (py "flag")
  else if eq_literal severity "inappropriate" then Ret (py "reject")
  else if eq_literal severity "harmful" then Ret (py "escalate")
  else Ret (py "safe").

(** The fixed text of each resolver around the embedded explanation:
    what the f-string has before [{original_explanation}] and after it. *)
Definition approve_head : pystr :=
  [0x2705%N]
  ++ py " Your content has been approved and is safe to publish. No changes needed."
  ++ newline ++ newline ++ py "Analysis: ".

Definition flag_head : pystr :=
  [0x26A0%N; 0xFE0F%N]
  ++ py " Your content was classified as questionable."
  ++ newline ++ newline ++ py "Reason: ".
Definition flag_tail : pystr :=
  newline ++ newline
  ++ py "Please review and revise your content to make it more appropriate before resubmitting.".

Definition reject_head : pystr :=
  [0x274C%N]
  ++ py " Your content was classified as inappropriate."
  ++ newline ++ newline ++ py "Reason: ".
Definition reject_tail : pystr :=
  newline ++ newline
  ++ py "It contains content that violates our guidelines and cannot be published. Please revise your content to make it more appropriate before resubmitting.".

Definition escalate_head : pystr :=
  [0x1F6A8%N]
  ++ py " Your content was classified as harmful."
  ++ newline ++ newline ++ py "Reason: ".
Definition escalate_tail : pystr :=
  newline ++ newline
  ++ py "This content contains material that is dangerous, illegal, or severely violates our guidelines. This submission has been escalated for review. Please revise your content to remove any harmful material. If you believe this is an error, please contact support.".

Definition approve (state : ModerationState) : result ModerationState :=
  let original_explanation := get_default (explanation state) (Some []) in
  Ret {| content := None; severity := None;
         action := Some (Some (py "approve"));
         explanation := Some (Some (approve_head ++ format original_explanation));
         metadata := None |}.

Definition flag (state : ModerationState) : result ModerationState :=
  let original_explanation := get_default (explanation state) (Some []) in
  Ret {| content := None; severity := None;
         action := Some (Some (py "flag"));
         explanation := Some (Some (flag_head ++ format original_explanation ++ flag_tail));
         metadata := None |}.

Definition reject (state : ModerationState) : result ModerationState :=
  let original_explanation := get_default (explanation state) (Some []) in
  Ret {| content := None; severity := None;
         action := Some (Some (py "reject"));
         explanation := Some (Some (reject_head ++ format original_explanation ++ reject_tail));
         metadata := None |}.

Definition escalate (state : ModerationState) : result ModerationState :=
  let original_explanation := get_default (explanation state) (Some []) in
  Ret {| content := None; severity := None;
         action := Some (Some (py "escalate"));
         explanation := Some (Some (escalate_head ++ format original_explanation ++ escalate_tail));
         metadata := None |}.

(* ================================================================= *)
(** ** The graph and its execution *)

(** [StateGraph], as far as [main.py] uses it: named nodes, edges, and
    conditional edges whose target is chosen by a router through a path
    map. A compiled graph runs in steps from the edges of [START]; a node
    receives the state and returns the keys it writes. *)
Module StateGraph.

Definition Node := ModerationState -> result ModerationState.
Definition Path := ModerationState -> result pystr.

Record t := make {
  nodes : list (pystr * Node);
  edges : list (pystr * pystr);
  branches : list (pystr * (Path * list (pystr * pystr)))
}.

Definition START : pystr := py "__start__".
Definition END : pystr := py "__end__".

Definition new : t := make [] [] [].

Definition add_node (g : t) (name : string) (f : Node) : t :=
  make (nodes g ++ [(py name, f)]) (edges g) (branches g).

Definition add_edge (g : t) (source target : pystr) : t :=
  make (nodes g) (edges g ++ [(source, target)]) (branches g).

Definition add_conditional_edges (g : t) (source : string) (path : Path)
    (path_map : list (string * string)) : t :=
  make (nodes g) (edges g)
       (branches g
        ++ [(py source, (path, List.map (fun kv => (py (fst kv), py (snd kv))) path_map))]).

Fixpoint lookup {A} (key : pystr) (l : list (pystr * A)) : option A :=
  match l with
  | [] => None
  | (k, v) :: rest => if PyStr.eqb k key then Some v else lookup key rest
  end.

(** A node returns the keys it writes; each of them replaces the value the
    state had under that key, the other keys stay. *)
Definition write {A} (old new : option A) : option A :=
  match new with
  | Some v => Some v
  | None => old
  end.

Definition update (state writes : ModerationState) : ModerationState :=
  mkState (write (content state) (content writes))
          (write (severity state) (severity writes))
          (write (action state) (action writes))
          (write (explanation state) (explanation writes))
          (write (metadata state) (metadata writes)).

(** A run: a computation that may raise, and that records the names of the
    nodes it calls, in the order of the calls. The record survives an
    exception. *)
Definition Run (A : Type) := list pystr -> result A * list pystr.

Definition ret {A} (a : A) : Run A := fun called => (Ret a, called).

Definition lift {A} (r : result A) : Run A := fun called => (r, called).

Definition then_ {A B} (m : Run A) (k : A -> Run B) : Run B :=
  fun called =>
    match m called with
    | (Ret a, called') => k a called'
    | (Raise e, called') => (Raise e, called')
    end.

Definition calling (name : pystr) : Run unit :=
  fun called => (Ret tt, called ++ [name]).

Notation "x <~ m ;; k" := (then_ m (fun x => k))
  (at level 61, m at next level, right associativity) : py_scope.

(** Calls the node [name] on [state]. *)
Definition call (g : t) (state : ModerationState) (name : pystr)
  : Run ModerationState :=
  _ <~ calling name;;
  lift (match lookup name (nodes g) with
        | Some f => f state
        | None => Raise (KeyError name)
        end).

(** One step: every node of [active] is called on the same state. *)
Fixpoint call_all (g : t) (state : ModerationState) (active : list pystr)
  : Run (list ModerationState) :=
  match active with
  | [] => ret []
  | name :: rest =>
      writes <~ call g state name;;
      more <~ call_all g state rest;;
      ret (writes :: more)
  end.

(** Where the conditional edges of [name] lead: the router is called on the
    state and its answer is looked up in the path map. *)
Fixpoint route (bs : list (pystr * (Path * list (pystr * pystr))))
    (name : pystr) (state : ModerationState) : result (list pystr) :=
  match bs with
  | [] => Ret []
  | (source, (path, path_map)) :: rest =>
      if PyStr.eqb source name then
        answer <- path state;;
        target <- match lookup answer path_map with
                  | Some target => Ret target
                  | None => Raise (KeyError answer)
                  end;;
        more <- route rest name state;;
        Ret (target :: more)
      else route rest name state
  end.

Definition targets (g : t) (name : pystr) (state : ModerationState)
  : result (list pystr) :=
  let direct :=
    List.map snd (List.filter (fun e => PyStr.eqb (fst e) name) (edges g)) in
  routed <- route (branches g) name state;;
  Ret (direct ++ routed).

Fixpoint next (g : t) (state : ModerationState) (done : list pystr)
  : result (list pystr) :=
  match done with
  | [] => Ret []
  | name :: rest =>
      here <- targets g name state;;
      more <- next g state rest;;
      Ret (here ++ more)
  end.

Definition recursion_error (limit : nat) : exn :=
  Raised (py "GraphRecursionError")
         (py "Recursion limit of " ++ str_of_int (Z.of_nat limit)
          ++ py " reached without hitting a stop condition.").

(** The steps of an invocation, at most [limit] of them: the active nodes
    run, their writes are applied, and the edges leaving them give the
    nodes of the next step; the run is over when nothing but [END] is
    left. *)
Fixpoint steps (limit fuel : nat) (g : t) (state : ModerationState)
    (active : list pystr) : Run ModerationState :=
  match List.filter (fun name => negb (PyStr.eqb name END)) active with
  | [] => ret state
  | running =>
      match fuel with
      | O => lift (Raise (recursion_error limit))
      | S fuel' =>
          writes <~ call_all g state running;;
          let state' := fold_left update writes state in
          following <~ lift (next g state' running);;
          steps limit fuel' g state' following
      end
  end.

(** [graph.compile()] *)
Record Compiled := compiled { graph_of : t; recursion_limit : nat }.

Definition compile (g : t) : Compiled := compiled g 25.

(** [builder.invoke(input)], with the names of the nodes it called. *)
Definition invoke_traced (b : Compiled) (input : ModerationState)
  : result ModerationState * list pystr :=
  (first <~ lift (targets (graph_of b) START input);;
   steps (recursion_limit b) (recursion_limit b) (graph_of b) input first) [].

(** [builder.invoke(input)] *)
Definition invoke (b : Compiled) (input : ModerationState)
  : result ModerationState :=
  fst (invoke_traced b input).

End StateGraph.

(** The graph of [main.py], built by the same calls in the same order. *)
Definition graph (chain : Chain) : StateGraph.t :=
  let graph := StateGraph.new in
  let graph := StateGraph.add_edge graph StateGraph.START (py "analyse_content") in
  let graph := StateGraph.add_node graph "analyse_content" analyse_content in
  let graph := StateGraph.add_node graph "classify_severity" (classify_severity chain) in
  let graph := StateGraph.add_node graph "approve" approve in
  let graph := StateGraph.add_node graph "flag" flag in
  let graph := StateGraph.add_node graph "reject" reject in
  let graph := StateGraph.add_node graph "escalate" escalate in
  let graph := StateGraph.add_edge graph (py "analyse_content") (py "classify_severity") in
  let graph :=
    StateGraph.add_conditional_edges graph "classify_severity" routing_decision
      [ ("approve"%string, "approve"%string);
        ("flag"%string, "flag"%string);
        ("reject"%string, "reject"%string);
        ("escalate"%string, "escalate"%string) ] in
  let graph := StateGraph.add_edge graph (py "approve") StateGraph.END in
  let graph := StateGraph.add_edge graph (py "flag") StateGraph.END in
  let graph := StateGraph.add_edge graph (py "reject") StateGraph.END in
  let graph := StateGraph.add_edge graph (py "escalate") StateGraph.END in
  graph.

Definition builder (chain : Chain) : StateGraph.Compiled :=
  StateGraph.compile (graph chain).

(* ================================================================= *)
(** ** app.py *)

(** What [run_moderation] returns: the final state of the graph, or the
    dictionary [{"error": str(e)}]. *)
Inductive Outcome :=
| Final (state : ModerationState)
| Error (error : pystr).

Definition run_moderation (chain : Chain) (content : pystr) : Outcome :=
  match StateGraph.invoke (builder chain)
          (mkState (Some content) None None None None) with
  | Ret result => Final result
  | Raise e => Error (exn_str e)
  end.

(** The keys of the returned dictionary. *)
Definition outcome_keys (o : Outcome) : list pystr :=
  match o with
  | Final state => keys state
  | Error _ => [py "error"]
  end.

(** [key in result] *)
Definition has_key (key : string) (o : Outcome) : bool :=
  existsb (PyStr.eqb (py key)) (outcome_keys o).

(* ================================================================= *)
(** ** Vocabulary of the statements *)

(** The four resolvers, to speak of them together. *)
Inductive Resolver := Approve | Flag | Reject | Escalate.

Definition resolver (r : Resolver) : StateGraph.Node :=
  match r with
  | Approve => approve
  | Flag => flag
  | Reject => reject
  | Escalate => escalate
  end.

(** The action identifier of a resolver, which is also the name of its
    node in the graph. *)
Definition identifier (r : Resolver) : pystr :=
  match r with
  | Approve => py "approve"
  | Flag => py "flag"
  | Reject => py "reject"
  | Escalate => py "escalate"
  end.

Definition head (r : Resolver) : pystr :=
  match r with
  | Approve => approve_head
  | Flag => flag_head
  | Reject => reject_head
  | Escalate => escalate_head
  end.

Definition tail (r : Resolver) : pystr :=
  match r with
  | Approve => []
  | Flag => flag_tail
  | Reject => reject_tail
  | Escalate => escalate_tail
  end.

(** The table of the Router as the specification gives it. *)
Definition action_for (l : SeverityClassification.Literal) : Resolver :=
  match l with
  | SeverityClassification.safe => Approve
  | SeverityClassification.questionable => Flag
  | SeverityClassification.inappropriate => Reject
  | SeverityClassification.harmful => Escalate
  end.

Definition is_action (s : pystr) : bool :=
  existsb (PyStr.eqb s) (List.map identifier [Approve; Flag; Reject; Escalate]).

(** [{"content": content}], the input of an invocation. *)
Definition input (content : pystr) : ModerationState :=
  mkState (Some content) None None None None.

(** A dictionary that holds the key [metadata] and no other. *)
Definition only_metadata (d : pydict) : ModerationState :=
  mkState None None None None (Some (Some d)).

Definition error_metadata : pydict :=
  [(py "error", VStr (py "Content is empty"))].

(** The metadata a state brings along, a missing or [None] entry counting
    as the empty dictionary. *)
Definition prior_metadata (state : ModerationState) : pydict :=
  match metadata state with
  | Some (Some d) => d
  | _ => []
  end.

(** [state] with another text under [content]. *)
Definition with_content (state : ModerationState) (c : pystr) : ModerationState :=
  mkState (Some c) (severity state) (action state) (explanation state)
          (metadata state).

(** What the Preprocessor leaves under [metadata] when an invocation starts
    from [{"content": c}]. *)
Definition analysed (c : pystr) : pydict :=
  if blank c then error_metadata
  else [ (py "content_length", VInt (len c));
         (py "word_count", VInt (Z.of_nat (List.length (split c))));
         (py "has_urls",
          VBool (contains (py "http://") c || contains (py "https://") c)) ].

(** The state an invocation ends in when the model answers [response]. *)
Definition final_state (c : pystr) (response : SeverityClassification.t)
  : ModerationState :=
  let r := action_for (SeverityClassification.severity response) in
  mkState (Some c)
    (Some (Some (SeverityClassification.label
                   (SeverityClassification.severity response))))
    (Some (Some (identifier r)))
    (Some (Some (head r ++ SeverityClassification.explanation response ++ tail r)))
    (Some (Some (analysed c))).

(** The request [classify_severity] sends for the content [c] of a fresh
    invocation: the listing of what the Preprocessor left. *)
Definition request (c : pystr) : pystr := render_metadata (Some (analysed c)).

(** The names of the nodes an invocation on [{"content": c}] calls. *)
Definition called_nodes (chain : Chain) (c : pystr) : list pystr :=
  snd (StateGraph.invoke_traced (builder chain) (input c)).

(** An invocation runs the whole sequence: the Preprocessor, the
    Classifier and then exactly one resolver. *)
Definition runs_whole_sequence (chain : Chain) (c : pystr) : Prop :=
  exists r, called_nodes chain c
            = [py "analyse_content"; py "classify_severity"; identifier r].

(** [text] occurs in [s]. *)
Definition occurs_in (text s : pystr) : Prop :=
  exists before after, s = before ++ text ++ after.

(** Two model chains to run the workflow on: one that answers every
    request with the same classification, one that times out. *)
Definition answering (l : SeverityClassification.Literal) (rationale : pystr) : Chain :=
  fun _ _ => Ret (SeverityClassification.make l rationale).

Definition timing_out : Chain :=
  fun _ _ => Raise (Raised (py "TimeoutError") (py "Request timed out.")).

(* ================================================================= *)
(** ** Vocabulary for the run of an arbitrary input *)

(** The three measures the Preprocessor takes of the text [c]. *)
Definition measures (c : pystr) : pydict :=
  [ (py "content_length", VInt (len c));
    (py "word_count", VInt (Z.of_nat (List.length (split c))));
    (py "has_urls",
     VBool (contains (py "http://") c || contains (py "https://") c)) ].

(** What the Preprocessor leaves under [metadata] when the state holds the
    text [c]. *)
Definition analysed_in (state : ModerationState) (c : pystr) : pydict :=
  if blank c then error_metadata
  else merge (prior_metadata state) (measures c).

(** The dictionary the Classifier returns for the answer [response]. *)
Definition classified (response : SeverityClassification.t) : ModerationState :=
  {| content := None;
     severity := Some (Some (SeverityClassification.label
                               (SeverityClassification.severity response)));
     action := None;
     explanation := Some (Some (SeverityClassification.explanation response));
     metadata := None |}.

(** The state at the end of an invocation on the text [c] when the
    metadata after the Preprocessor is [m] and the model answers
    [response]. *)
Definition final_with (c : pystr) (m : pydict)
    (response : SeverityClassification.t) : ModerationState :=
  let r := action_for (SeverityClassification.severity response) in
  {| content := Some c;
     severity := Some (Some (SeverityClassification.label
                               (SeverityClassification.severity response)));
     action := Some (Some (identifier r));
     explanation :=
       Some (Some (head r ++ SeverityClassification.explanation response ++ tail r));
     metadata := Some (Some m) |}.

(* ================================================================= *)
(** ** app.py: the page *)

(** The entries of [st.session_state.messages]: the dictionaries with the
    keys [role], [content] and [metadata], the last one [None] for what the
    user wrote and, for an answer, the dictionary with the keys [severity],
    [action] and [full_metadata]. *)
Record Details := mkDetails {
  details_severity : Optional pystr;
  details_action : Optional pystr;
  full_metadata : Optional pydict
}.

Record Message := mkMessage {
  role : pystr;
  body : Optional pystr;
  details : Optional Details
}.

(** The entries of [st.session_state.conversation_history]. *)
Record Moderation := mkModeration {
  user_input : pystr;
  past_severity : Optional pystr;
  past_action : Optional pystr;
  past_explanation : Optional pystr;
  past_metadata : Optional pydict
}.

(** [st.session_state], with its two attributes, each of which may not
    have been set yet. *)
Record Session := mkSession {
  messages : option (list Message);
  conversation_history : option (list Moderation)
}.

(** The calls of the page into Streamlit. The page is a script that is run
    from top to bottom; what it shows is recorded as the list of the calls
    it makes, in their order, a [with] block being marked by its beginning
    and its end. What the widgets return, the click of the button and the
    text of the chat input, is given to the run. *)
Module st.

Inductive Container :=
| sidebar
| chat_message (name : pystr)
| expander (label : pystr)
| spinner (text : pystr)
| column (index : nat).

Inductive Element :=
| PageConfig (page_title page_icon layout : pystr)
| Title (text : pystr)
| Header (text : pystr)
| Markdown (text : Optional pystr)
| Button (label : pystr)
| ChatInput (placeholder : pystr)
| Success (text : Optional pystr)
| Warning (text : Optional pystr)
| Failure (text : Optional pystr)
| Info (text : Optional pystr)
| Metric (label value : pystr)
| Write (text : pystr)
| Json (value : Optional pydict)
| JsonDetails (value : Details)
| Columns (number : nat)
| Enter (container : Container)
| Leave (container : Container).

Record World := mkWorld { session : Session; screen : list Element }.

(** A piece of the script: it may raise, and it changes the session and
    what is on the screen. *)
Definition UI (A : Type) := World -> result A * World.

Definition ret {A} (a : A) : UI A := fun w => (Ret a, w).

Definition raise {A} (e : exn) : UI A := fun w => (Raise e, w).

Definition then_ {A B} (m : UI A) (k : A -> UI B) : UI B :=
  fun w =>
    match m w with
    | (Ret a, w') => k a w'
    | (Raise e, w') => (Raise e, w')
    end.

Notation "x <<- m ;; k" := (then_ m (fun x => k))
  (at level 61, m at next level, right associativity) : py_scope.
Notation "m ;;; k" := (then_ m (fun _ => k))
  (at level 61, right associativity) : py_scope.

Definition show (e : Element) : UI unit :=
  fun w => (Ret tt, mkWorld (session w) (screen w ++ [e])).

(** [with container: block]; the block is left also when it raises. *)
Definition within {A} (c : Container) (block : UI A) : UI A :=
  fun w =>
    let (r, w') := block (mkWorld (session w) (screen w ++ [Enter c])) in
    (r, mkWorld (session w') (screen w' ++ [Leave c])).

Definition set_page_config (page_title page_icon layout : pystr) : UI unit :=
  show (PageConfig page_title page_icon layout).
Definition title (text : string) : UI unit := show (Title (py text)).
Definition header (text : string) : UI unit := show (Header (py text)).
Definition markdown (text : Optional pystr) : UI unit := show (Markdown text).
Definition success (text : Optional pystr) : UI unit := show (Success text).
Definition warning (text : Optional pystr) : UI unit := show (Warning text).
Definition error (text : Optional pystr) : UI unit := show (Failure text).
Definition info (text : Optional pystr) : UI unit := show (Info text).
Definition metric (label : string) (value : pystr) : UI unit :=
  show (Metric (py label) value).
Definition write (text : string) : UI unit := show (Write (py text)).
Definition json (value : Optional pydict) : UI unit := show (Json value).
Definition json_details (value : Details) : UI unit := show (JsonDetails value).
Definition columns (number : nat) : UI unit := show (Columns number).

(** [st.button(label)] and [st.chat_input(placeholder)]: the widget is
    shown, and the call returns what the user did with it. *)
Definition button (label : string) (clicked : bool) : UI bool :=
  show (Button (py label));;; ret clicked.
Definition chat_input (placeholder : string) (submitted : Optional pystr)
  : UI (Optional pystr) :=
  show (ChatInput (py placeholder));;; ret submitted.

(** [st.rerun()] ends the run of the script by an exception of its own. *)
Definition rerun_exception : exn := Raised (py "RerunException") [].
Definition rerun : UI unit := raise rerun_exception.

(** Reading an attribute of [st.session_state] that was never set raises
    (the message is shortened). *)
Definition missing_attribute (name : string) : exn :=
  Raised (py "AttributeError")
         (py "st.session_state has no attribute " ++ py name).

Definition get_messages : UI (list Message) :=
  fun w =>
    match messages (session w) with
    | Some l => (Ret l, w)
    | None => (Raise (missing_attribute "messages"), w)
    end.

Definition get_conversation_history : UI (list Moderation) :=
  fun w =>
    match conversation_history (session w) with
    | Some l => (Ret l, w)
    | None => (Raise (missing_attribute "conversation_history"), w)
    end.

Definition set_messages (l : list Message) : UI unit :=
  fun w =>
    (Ret tt,
     mkWorld (mkSession (Some l) (conversation_history (session w))) (screen w)).

Definition set_conversation_history (l : list Moderation) : UI unit :=
  fun w =>
    (Ret tt, mkWorld (mkSession (messages (session w)) (Some l)) (screen w)).

(** [st.session_state.messages.append(m)] *)
Definition messages_append (m : Message) : UI unit :=
  l <<- get_messages;; set_messages (l ++ [m]).

(** [st.session_state.conversation_history.append(m)] *)
Definition conversation_history_append (m : Moderation) : UI unit :=
  l <<- get_conversation_history;; set_conversation_history (l ++ [m]).

(** [for x in l: block] *)
Fixpoint for_each {A} (l : list A) (block : A -> UI unit) : UI unit :=
  match l with
  | [] => ret tt
  | x :: rest => block x;;; for_each rest block
  end.

End st.

Notation "x <<- m ;; k" := (st.then_ m (fun x => k))
  (at level 61, m at next level, right associativity) : py_scope.
Notation "m ;;; k" := (st.then_ m (fun _ => k))
  (at level 61, right associativity) : py_scope.

Definition page_icon : pystr :=
  [0x1F6E1%N; 0xFE0F%N].

Definition intro_text : pystr :=
  py "Submit your content for moderation. You'll receive feedback and can revise your content.".

Definition instructions_text : pystr :=
  newline
  ++ py "        1. Enter your content in the text area below"
  ++ newline
  ++ py "        2. Click **Submit** to analyze your content"
  ++ newline
  ++ py "        3. Review the moderation result"
  ++ newline
  ++ py "        4. If flagged, revise your content and resubmit"
  ++ newline
  ++ py "        5. Continue until your content is approved"
  ++ newline
  ++ py "        ".

Definition severity_levels_text : pystr :=
  newline
  ++ py "        - **"
  ++ [0x2705%N]
  ++ py " Safe**: Content approved"
  ++ newline
  ++ py "        - **"
  ++ [0x26A0%N; 0xFE0F%N]
  ++ py " Questionable**: Borderline, needs review"
  ++ newline
  ++ py "        - **"
  ++ [0x274C%N]
  ++ py " Inappropriate**: Violates guidelines"
  ++ newline
  ++ py "        - **"
  ++ [0x1F6A8%N]
  ++ py " Harmful**: Dangerous content"
  ++ newline
  ++ py "        ".

Definition details_label : pystr :=
  [0x1F4CA%N]
  ++ py " Analysis Details".

(** [result.get(key, default)] and [result[key]] on what [run_moderation]
    returned. *)
Definition result_get {A} (result : Outcome) (field : ModerationState -> option A)
    (default : A) : A :=
  match result with
  | Final state => get_default (field state) default
  | Error _ => default
  end.

Definition result_error (returned : Outcome) : result pystr :=
  match returned with
  | Error error => Ret error
  | Final _ => Raise (KeyError (py "error"))
  end.

Section Page.

(** [str.upper], which the page applies to the severity and the action it
    displays; the script does not depend on what it computes. *)
Variable upper : pystr -> pystr.

Variable chain : Chain.

(** [value.upper()] *)
Definition call_upper (value : Optional pystr) : st.UI pystr :=
  match value with
  | Some s => st.ret (upper s)
  | None =>
      st.raise (Raised (py "AttributeError")
                  (py "'NoneType' object has no attribute 'upper'"))
  end.

(** Lines 11 to 15: the two attributes are set to the empty list unless
    they are there. *)
Definition initialize : st.UI unit :=
  fun w =>
    (Ret tt,
     st.mkWorld
       (mkSession
          (Some (get_default (messages (st.session w)) []))
          (Some (get_default (conversation_history (st.session w)) [])))
       (st.screen w)).

(** Lines 55 to 61: a stored message is shown. *)
Definition show_message (message : Message) : st.UI unit :=
  st.within (st.chat_message (role message))
    (st.markdown (body message);;;
     match details message with
     | Some d => st.within (st.expander details_label) (st.json_details d)
     | None => st.ret tt
     end).

(** Lines 79 to 122: a result without error is shown and stored. *)
Definition show_result (prompt : pystr) (result : Outcome) : st.UI unit :=
  let severity := result_get result severity (Some (py "unknown")) in
  let action := result_get result action (Some (py "unknown")) in
  let explanation :=
    result_get result explanation (Some (py "No explanation provided")) in
  let metadata := result_get result metadata (Some []) in
  (if eq_literal action "approve" then st.success explanation
   else if eq_literal action "flag" then st.warning explanation
   else if eq_literal action "reject" then st.error explanation
   else if eq_literal action "escalate" then st.error explanation
   else st.info explanation);;;
  st.within (st.expander (py "Analysis Details"))
    (st.columns 2;;;
     st.within (st.column 0)
       (shown <<- call_upper severity;;
        st.metric "Severity" shown;;;
        shown <<- call_upper action;;
        st.metric "Action" shown);;;
     st.within (st.column 1)
       (match metadata with
        | Some (_ :: _) => st.write "**Metadata:**";;; st.json metadata
        | _ => st.ret tt
        end));;;
  st.messages_append
    (mkMessage (py "assistant") explanation
       (Some (mkDetails severity action metadata)));;;
  st.conversation_history_append
    (mkModeration prompt severity action explanation metadata).

(** [main()]; [clicked] is what [st.button] returns in this run and
    [submitted] what [st.chat_input] returns. *)
Definition main (clicked : bool) (submitted : Optional pystr) : st.UI unit :=
  st.title "Content Moderation System";;;
  st.markdown (Some intro_text);;;
  st.within st.sidebar
    (st.header "Instructions";;;
     st.markdown (Some instructions_text);;;
     st.header "Severity Levels";;;
     st.markdown (Some severity_levels_text);;;
     pressed <<- st.button "Clear Conversation" clicked;;
     if pressed then
       st.set_messages [];;;
       st.set_conversation_history [];;;
       st.rerun
     else st.ret tt);;;
  stored <<- st.get_messages;;
  st.for_each stored show_message;;;
  prompt <<- st.chat_input "Enter your content here..." submitted;;
  match prompt with
  | Some ((_ :: _) as prompt) =>
      st.messages_append (mkMessage (py "user") (Some prompt) None);;;
      st.within (st.chat_message (py "user")) (st.markdown (Some prompt));;;
      st.within (st.chat_message (py "assistant"))
        (result <<- st.within (st.spinner (py "Analyzing content..."))
                      (st.ret (run_moderation chain prompt));;
         if has_key "error" result then
           error <<- (fun w => (result_error result, w));;
           st.error (Some (py "Error: " ++ error))
         else show_result prompt result)
  | _ => st.ret tt
  end.

(** One run of the script [app.py]: the configuration of the page, the
    initialisation of the session, and [main()]. *)
Definition script (clicked : bool) (submitted : Optional pystr)
    (stored : Session) : result unit * st.World :=
  (st.set_page_config (py "Content Moderation System") page_icon (py "wide");;;
   initialize;;;
   main clicked submitted) (st.mkWorld stored []).

End Page.

(** The session after a run of the script. *)
Definition session_after (upper : pystr -> pystr) (chain : Chain)
    (clicked : bool) (submitted : Optional pystr) (stored : Session) : Session :=
  st.session (snd (script upper chain clicked submitted stored)).

(** The sessions a user goes through: each run of the script starts from
    the session the run before has left; every run has its own model
    chain, as the model may answer differently from one call to the
    next. *)
Fixpoint session_after_runs (upper : pystr -> pystr)
    (runs : list (Chain * bool * Optional pystr)) (stored : Session) : Session :=
  match runs with
  | [] => stored
  | (chain, clicked, submitted) :: rest =>
      session_after_runs upper rest
        (session_after upper chain clicked submitted stored)
  end.

(** The answers among the stored messages, and what the history holds, put
    in one form to compare them. *)
Definition answer_of (m : Message) : list (Optional pystr * Optional Details) :=
  if PyStr.eqb (role m) (py "assistant") then [(body m, details m)] else [].

Definition answers (l : list Message) : list (Optional pystr * Optional Details) :=
  flat_map answer_of l.

Definition recorded (h : Moderation) : Optional pystr * Optional Details :=
  (past_explanation h,
   Some (mkDetails (past_severity h) (past_action h) (past_metadata h))).

(** What the user wrote, among the stored messages and in the history. *)
Definition question_of (m : Message) : list (Optional pystr) :=
  if PyStr.eqb (role m) (py "user") then [body m] else [].

(** [upper] of ASCII letters, to run the page on. *)
Definition ascii_upper (s : pystr) : pystr :=
  List.map (fun c => if ((97 <=? c) && (c <=? 122))%N then (c - 32)%N else c) s.

(** What a run of the script puts on the screen, piece by piece: the top of
    the page with the sidebar, a stored message, the text just submitted,
    and the answer to it. *)
Definition page_top : list st.Element :=
  [ st.PageConfig (py "Content Moderation System") page_icon (py "wide");
    st.Title (py "Content Moderation System");
    st.Markdown (Some intro_text);
    st.Enter st.sidebar;
    st.Header (py "Instructions");
    st.Markdown (Some instructions_text);
    st.Header (py "Severity Levels");
    st.Markdown (Some severity_levels_text);
    st.Button (py "Clear Conversation");
    st.Leave st.sidebar ].

Definition rendering (m : Message) : list st.Element :=
  [ st.Enter (st.chat_message (role m)); st.Markdown (body m) ]
  ++ match details m with
     | Some d => [ st.Enter (st.expander details_label); st.JsonDetails d;
                   st.Leave (st.expander details_label) ]
     | None => []
     end
  ++ [ st.Leave (st.chat_message (role m)) ].

Definition question_shown (prompt : pystr) : list st.Element :=
  [ st.Enter (st.chat_message (py "user")); st.Markdown (Some prompt);
    st.Leave (st.chat_message (py "user")) ].

Definition status_widget (r : Resolver) (text : Optional pystr) : st.Element :=
  match r with
  | Approve => st.Success text
  | Flag => st.Warning text
  | Reject => st.Failure text
  | Escalate => st.Failure text
  end.

Definition answer_shown (upper : pystr -> pystr) (prompt : pystr)
    (response : SeverityClassification.t) : list st.Element :=
  let final := final_state prompt response in
  let r := action_for (SeverityClassification.severity response) in
  [ st.Enter (st.chat_message (py "assistant"));
    st.Enter (st.spinner (py "Analyzing content..."));
    st.Leave (st.spinner (py "Analyzing content..."));
    status_widget r (get_or_none (explanation final));
    st.Enter (st.expander (py "Analysis Details"));
    st.Columns 2;
    st.Enter (st.column 0);
    st.Metric (py "Severity")
      (upper (SeverityClassification.label (SeverityClassification.severity response)));
    st.Metric (py "Action") (upper (identifier r));
    st.Leave (st.column 0);
    st.Enter (st.column 1);
    st.Write (py "**Metadata:**");
    st.Json (Some (analysed prompt));
    st.Leave (st.column 1);
    st.Leave (st.expander (py "Analysis Details"));
    st.Leave (st.chat_message (py "assistant")) ].

Definition failure_shown (e : exn) : list st.Element :=
  [ st.Enter (st.chat_message (py "assistant"));
    st.Enter (st.spinner (py "Analyzing content..."));
    st.Leave (st.spinner (py "Analyzing content..."));
    st.Failure (Some (py "Error: " ++ exn_str e));
    st.Leave (st.chat_message (py "assistant")) ].

(** The message and the history entry stored for an answer. *)
Definition answer_message (prompt : pystr) (response : SeverityClassification.t)
  : Message :=
  let final := final_state prompt response in
  mkMessage (py "assistant") (get_or_none (explanation final))
    (Some (mkDetails (get_or_none (severity final)) (get_or_none (action final))
             (get_or_none (metadata final)))).

Definition answer_record (prompt : pystr) (response : SeverityClassification.t)
  : Moderation :=
  let final := final_state prompt response in
  mkModeration prompt (get_or_none (severity final)) (get_or_none (action final))
    (get_or_none (explanation final)) (get_or_none (metadata final)).

(** The stored lists of a session, an attribute not yet set counting as
    the empty list, as the script makes it at its start. *)
Definition stored_messages (s : Session) : list Message :=
  get_default (messages s) [].

Definition stored_history (s : Session) : list Moderation :=
  get_default (conversation_history s) [].

(** A session is consistent when the history holds exactly the answers
    among the stored messages, in the same order, when every stored
    message is of the user or of the assistant, and when there are at
    least as many texts of the user as entries in the history. *)
Definition consistent (s : Session) : Prop :=
  answers (stored_messages s) = List.map recorded (stored_history s)
  /\ Forall (fun m => role m = py "user" \/ role m = py "assistant")
            (stored_messages s)
  /\ List.length (stored_history s)
     <= List.length (flat_map question_of (stored_messages s)).

(* ================================================================= *)
(** ** Strings: comparison, white space, words, substrings *)

Section StringFacts.

Lemma eqb_spec (a b : pystr) : reflect (a = b) (PyStr.eqb a b).
Proof.
  revert b; induction a as [|x a IH]; intros [|y b]; simpl;
    try (constructor; congruence).
  destruct (N.eqb_spec x y) as [->|Hxy]; simpl.
  - destruct (IH b) as [->|Hab]; constructor; congruence.
  - constructor; congruence.
Qed.

Lemma eqb_refl (a : pystr) : PyStr.eqb a a = true.
Proof. destruct (eqb_spec a a); congruence. Qed.

Lemma eqb_neq (a b : pystr) : a <> b -> PyStr.eqb a b = false.
Proof. destruct (eqb_spec a b); congruence. Qed.

Lemma all_rev (f : char -> bool) (s : pystr) : forallb f (rev s) = forallb f s.
Proof.
  induction s as [|c s IH]; simpl; [reflexivity|].
  rewrite forallb_app, IH; simpl.
  rewrite andb_true_r; apply andb_comm.
Qed.

Lemma blank_rev (s : pystr) : blank (rev s) = blank s.
Proof. apply all_rev. Qed.

(** Once the leading white space is gone, what is left is empty or starts
    with a character that is not white space. *)
Lemma lstrip_blank (s : pystr) : blank (lstrip s) = true -> lstrip s = [].
Proof.
  induction s as [|c s IH]; simpl; [reflexivity|].
  destruct (isspace c) eqn:Hc; [exact IH|].
  simpl; rewrite Hc; discriminate.
Qed.

Lemma lstrip_nil (s : pystr) : lstrip s = [] <-> blank s = true.
Proof.
  induction s as [|c s IH]; simpl; [tauto|].
  destruct (isspace c); simpl; [exact IH|].
  split; discriminate.
Qed.

Lemma strip_nil (s : pystr) : strip s = [] <-> blank s = true.
Proof.
  unfold strip, rstrip; split; intros H.
  - apply lstrip_nil, lstrip_blank.
    rewrite <- blank_rev.
    apply lstrip_nil.
    destruct (lstrip (rev (lstrip s))) as [|x l] eqn:E; [reflexivity|].
    simpl in H; destruct (rev l); discriminate.
  - apply lstrip_nil in H; rewrite H; reflexivity.
Qed.

(** The test of [analyse_content], [not content or len(content.strip()) == 0],
    holds exactly for the texts made of white space only. *)
Lemma empty_test (c : pystr) :
  falsy c || (len (strip c) =? 0)%Z = blank c.
Proof.
  destruct (blank c) eqn:Hb.
  - apply strip_nil in Hb; unfold len; rewrite Hb; simpl.
    apply orb_true_r.
  - assert (Hs : strip c <> []) by (rewrite strip_nil; congruence).
    destruct c as [|x c]; [discriminate|]; simpl.
    unfold len; destruct (strip (x :: c)); [congruence|]; reflexivity.
Qed.

(** [split] builds as many words as there are token starts. *)
Lemma split_from_length (word s : pystr) :
  List.length (split_from word s) =
  match word with
  | [] => count_token_starts true s
  | _ :: _ => S (count_token_starts false s)
  end.
Proof.
  revert word; induction s as [|c s IH]; intros word; simpl.
  - destruct word; reflexivity.
  - destruct (isspace c).
    + destruct word; simpl; rewrite (IH []); reflexivity.
    + rewrite (IH (c :: word)); destruct word; reflexivity.
Qed.

Lemma split_length (s : pystr) : List.length (split s) = token_count s.
Proof. apply (split_from_length [] s). Qed.

(** Every word of [split] is non-empty and free of white space. *)
Lemma split_from_words (word s : pystr) :
  forallb (fun c => negb (isspace c)) word = true ->
  Forall (fun w => w <> [] /\ forallb (fun c => negb (isspace c)) w = true)
         (split_from word s).
Proof.
  revert word; induction s as [|c s IH]; intros word Hw; simpl.
  - destruct word as [|x word]; constructor; [|constructor].
    split.
    + intros E; apply (f_equal (@List.length _)) in E.
      rewrite length_rev in E; discriminate.
    + rewrite all_rev; exact Hw.
  - destruct (isspace c) eqn:Hc.
    + destruct word as [|x word]; [apply IH; reflexivity|].
      constructor; [|apply IH; reflexivity].
      split.
      * intros E; apply (f_equal (@List.length _)) in E.
        rewrite length_rev in E; discriminate.
      * rewrite all_rev; exact Hw.
    + apply IH; simpl; rewrite Hc; exact Hw.
Qed.

Lemma startswith_spec (s prefix : pystr) :
  startswith s prefix = true <-> exists after, s = prefix ++ after.
Proof.
  revert s; induction prefix as [|p prefix IH]; intros s; simpl.
  - split; [intros _; exists s; reflexivity|intros _; destruct s; reflexivity].
  - destruct s as [|c s]; simpl.
    + split; [discriminate|intros [after H]; discriminate].
    + rewrite andb_true_iff, N.eqb_eq, IH; split.
      * intros [-> [after ->]]; exists after; reflexivity.
      * intros [after H]; injection H as -> ->; split; [reflexivity|].
        exists after; reflexivity.
Qed.

(** [sub in s] is true exactly when [sub] occurs in [s]. *)
Lemma contains_spec (sub s : pystr) :
  contains sub s = true <-> occurs_in sub s.
Proof.
  unfold occurs_in; induction s as [|c s IH]; cbn [contains].
  - rewrite orb_false_r, startswith_spec; split.
    + intros [after H]; exists [], after; exact H.
    + intros [[|x before] [after H]]; [exists after; exact H|discriminate].
  - rewrite orb_true_iff, startswith_spec, IH; split.
    + intros [[after H]|[before [after H]]].
      * exists [], after; exact H.
      * exists (c :: before), after; rewrite H; reflexivity.
    + intros [[|x before] [after H]].
      * left; exists after; exact H.
      * right; injection H as _ H; exists before, after; exact H.
Qed.

End StringFacts.

Example split_example :
  split (py "  I love   sunny days! ") = [py "I"; py "love"; py "sunny"; py "days!"].
Proof. reflexivity. Qed.

Example contains_example :
  contains (py "https://") (py "see https://x.org") = true
  /\ contains (py "http://") (py "see https://x.org") = false.
Proof. split; reflexivity. Qed.

Example strip_example : strip (py "  a b  ") = py "a b".
Proof. reflexivity. Qed.

Example str_of_int_example : str_of_int 18 = py "18" /\ str_of_int 0 = py "0".
Proof. split; reflexivity. Qed.

(* ================================================================= *)
(** ** Dictionaries *)

Section DictFacts.

Lemma get_set_same (d : pydict) (k : pystr) (v : pyvalue) :
  get (set d k v) k = Some v.
Proof.
  induction d as [|[k0 v0] d IH]; simpl.
  - rewrite eqb_refl; reflexivity.
  - destruct (PyStr.eqb k0 k) eqn:E; simpl; rewrite E; [reflexivity|exact IH].
Qed.

Lemma get_set_other (d : pydict) (k k' : pystr) (v : pyvalue) :
  k <> k' -> get (set d k v) k' = get d k'.
Proof.
  intros Hk; induction d as [|[k0 v0] d IH]; simpl.
  - rewrite (eqb_neq Hk); reflexivity.
  - destruct (eqb_spec k0 k) as [->|Hk0]; simpl.
    + rewrite (eqb_neq Hk); reflexivity.
    + destruct (PyStr.eqb k0 k'); [reflexivity|exact IH].
Qed.

(** [{**a, **b}] read key by key: a key of [b] has the value [b] stored
    last under it, any other key the value it has in [a]. *)
Lemma get_merge (a b : pydict) (k : pystr) :
  get (merge a b) k =
  match get (rev b) k with
  | Some v => Some v
  | None => get a k
  end.
Proof.
  unfold merge; revert a; induction b as [|[k0 v0] b IH]; intros a; simpl.
  - reflexivity.
  - rewrite IH; clear IH.
    assert (Hrev : forall (l : pydict),
               get (l ++ [(k0, v0)]) k =
               match get l k with
               | Some v => Some v
               | None => if PyStr.eqb k0 k then Some v0 else None
               end).
    { induction l as [|[k1 v1] l IHl]; simpl; [reflexivity|].
      destruct (PyStr.eqb k1 k); [reflexivity|exact IHl]. }
    rewrite Hrev.
    destruct (get (rev b) k); [reflexivity|].
    destruct (eqb_spec k0 k) as [->|Hk].
    + apply get_set_same.
    + apply get_set_other; exact Hk.
Qed.

End DictFacts.

(* ================================================================= *)
(** ** The Preprocessor, [analyse_content] *)

Section Preprocessor.

Variable state : ModerationState.
Variable c : pystr.
Hypothesis Hcontent : content state = Some c.

(** On a blank text the node returns the error metadata alone. *)
Lemma analyse_content_blank :
  blank c = true -> analyse_content state = Ret (only_metadata error_metadata).
Proof.
  intros Hb; unfold analyse_content.
  rewrite Hcontent; cbn [getitem bind].
  rewrite empty_test, Hb; reflexivity.
Qed.

(** On any other text it returns the prior metadata with the three
    measures stored into it. *)
Lemma analyse_content_measures :
  blank c = false ->
  analyse_content state =
  Ret (only_metadata
         (merge (prior_metadata state)
            [ (py "content_length", VInt (len c));
              (py "word_count", VInt (Z.of_nat (List.length (split c))));
              (py "has_urls",
               VBool (contains (py "http://") c || contains (py "https://") c)) ])).
Proof.
  intros Hb; unfold analyse_content.
  rewrite Hcontent; cbn [getitem bind].
  rewrite empty_test, Hb.
  unfold only_metadata, prior_metadata, get_or_none, get_default, any.
  cbn [existsb]; rewrite orb_false_r.
  destruct (metadata state) as [[[|kv d]|]|]; reflexivity.
Qed.

End Preprocessor.

(** C3. For a state whose content is empty or made of white space only,
    [analyse_content] returns the dictionary that holds [metadata] and
    nothing else, with [metadata] equal to [{"error": "Content is empty"}];
    applied to the state, it replaces whatever metadata was there, so that
    none of [content_length], [word_count], [has_urls] is present, and the
    node returns the same on this state as on the state with the empty
    text. *)
Theorem analyse_content_empty (state : ModerationState) (c : pystr) :
  content state = Some c ->
  blank c = true ->
  analyse_content state = Ret (only_metadata error_metadata)
  /\ metadata (StateGraph.update state (only_metadata error_metadata))
     = Some (Some error_metadata)
  /\ error_metadata = [(py "error", VStr (py "Content is empty"))]
  /\ get error_metadata (py "content_length") = None
  /\ get error_metadata (py "word_count") = None
  /\ get error_metadata (py "has_urls") = None
  /\ analyse_content state = analyse_content (with_content state []).
Proof.
  intros Hc Hb.
  rewrite (@analyse_content_blank state c Hc Hb).
  repeat split.
Qed.

Lemma analyse_content_empty_witness :
  content (mkState (Some (py "   ")) None None None
             (Some (Some [(py "seen", VBool true)]))) = Some (py "   ")
  /\ blank (py "   ") = true
  /\ analyse_content (mkState (Some (py "   ")) None None None
                        (Some (Some [(py "seen", VBool true)])))
     = analyse_content (input []).
Proof.
  split; [reflexivity|]; split; [reflexivity|].
  pose proof (@analyse_content_empty
                (mkState (Some (py "   ")) None None None
                   (Some (Some [(py "seen", VBool true)])))
                (py "   ") eq_refl eq_refl) as H.
  exact (proj2 (proj2 (proj2 (proj2 (proj2 (proj2 H)))))).
Defined.

(** C4. For a state whose content is neither empty nor blank,
    [analyse_content] returns normally, and the metadata it returns is the
    prior metadata merged with the three measures: [content_length] is
    [len(content)], [word_count] is the number of white-space-delimited
    tokens, [has_urls] tells whether [http://] or [https://] occurs in the
    content, and every other key has the value the prior metadata gave
    it. *)
Theorem analyse_content_metadata (state : ModerationState) (c : pystr) :
  content state = Some c ->
  blank c = false ->
  exists (m : pydict) (has_urls : bool),
    analyse_content state = Ret (only_metadata m)
    /\ metadata (StateGraph.update state (only_metadata m)) = Some (Some m)
    /\ get m (py "content_length") = Some (VInt (len c))
    /\ get m (py "word_count") = Some (VInt (Z.of_nat (token_count c)))
    /\ get m (py "has_urls") = Some (VBool has_urls)
    /\ (has_urls = true <->
        occurs_in (py "http://") c \/ occurs_in (py "https://") c)
    /\ (forall k, k <> py "content_length" -> k <> py "word_count" ->
                  k <> py "has_urls" ->
                  get m k = get (prior_metadata state) k).
Proof.
  intros Hc Hb.
  eexists; exists (contains (py "http://") c || contains (py "https://") c).
  split; [apply (@analyse_content_measures state c Hc Hb)|].
  split; [reflexivity|].
  split; [rewrite get_merge; reflexivity|].
  split; [rewrite get_merge, split_length; reflexivity|].
  split; [rewrite get_merge; reflexivity|].
  split; [rewrite orb_true_iff, !contains_spec; reflexivity|].
  intros k H1 H2 H3; rewrite get_merge.
  cbn [rev app get].
  rewrite (eqb_neq (not_eq_sym H3)), (eqb_neq (not_eq_sym H2)),
    (eqb_neq (not_eq_sym H1)).
  reflexivity.
Qed.

Lemma analyse_content_metadata_witness :
  content (input (py "visit http://a.b now")) = Some (py "visit http://a.b now")
  /\ blank (py "visit http://a.b now") = false
  /\ exists m, analyse_content (input (py "visit http://a.b now"))
               = Ret (only_metadata m)
               /\ get m (py "word_count") = Some (VInt 3).
Proof.
  split; [reflexivity|]; split; [reflexivity|].
  destruct (@analyse_content_metadata (input (py "visit http://a.b now"))
              (py "visit http://a.b now") eq_refl eq_refl)
    as (m & b & Hret & _ & _ & Hwords & _).
  exists m; split; [exact Hret|exact Hwords].
Defined.

(* ================================================================= *)
(** ** The run of the graph *)

Section Pipeline.

Variable chain : Chain.

Lemma analyse_content_input (c : pystr) :
  analyse_content (input c) = Ret (only_metadata (analysed c)).
Proof.
  unfold analysed; destruct (blank c) eqn:Hb.
  - apply (@analyse_content_blank (input c) c eq_refl Hb).
  - apply (@analyse_content_measures (input c) c eq_refl Hb).
Qed.

(** One step of the run on a single active node. *)
Lemma steps_single (limit fuel : nat) (g : StateGraph.t)
    (state : ModerationState) (name : pystr) (called : list pystr) :
  PyStr.eqb name StateGraph.END = false ->
  StateGraph.steps limit (S fuel) g state [name] called =
  match StateGraph.lookup name (StateGraph.nodes g) with
  | None => (Raise (KeyError name), called ++ [name])
  | Some f =>
      match f state with
      | Raise e => (Raise e, called ++ [name])
      | Ret writes =>
          match StateGraph.targets g name (StateGraph.update state writes) with
          | Raise e => (Raise e, called ++ [name])
          | Ret following =>
              StateGraph.steps limit fuel g (StateGraph.update state writes)
                following (called ++ [name])
          end
      end
  end.
Proof.
  intros Hname.
  cbn [StateGraph.steps filter]; rewrite Hname; cbn [negb].
  cbv beta iota delta [StateGraph.then_ StateGraph.call StateGraph.calling
                         StateGraph.lift StateGraph.ret StateGraph.call_all
                         StateGraph.next].
  destruct (StateGraph.lookup name (StateGraph.nodes g)) as [f|]; [|reflexivity].
  destruct (f state) as [writes|e]; [|reflexivity].
  cbn [fold_left].
  destruct (StateGraph.targets g name (StateGraph.update state writes))
    as [following|e]; cbn [bind]; [|reflexivity].
  rewrite app_nil_r; reflexivity.
Qed.

(** The run is over when [END] alone is left. *)
Lemma steps_end (limit fuel : nat) (g : StateGraph.t)
    (state : ModerationState) (called : list pystr) :
  StateGraph.steps limit fuel g state [StateGraph.END] called = (Ret state, called).
Proof. destruct fuel; reflexivity. Qed.

Lemma targets_start (state : ModerationState) :
  StateGraph.targets (graph chain) StateGraph.START state
  = Ret [py "analyse_content"].
Proof. reflexivity. Qed.

Lemma targets_analyse_content (state : ModerationState) :
  StateGraph.targets (graph chain) (py "analyse_content") state
  = Ret [py "classify_severity"].
Proof. reflexivity. Qed.

(** After the Classifier the router decides, and its answer is looked up
    in the path map of the conditional edges. *)
Lemma targets_classify_severity (state : ModerationState) :
  StateGraph.targets (graph chain) (py "classify_severity") state
  = (answer <- routing_decision state;;
     target <- match StateGraph.lookup answer
                       [ (py "approve", py "approve"); (py "flag", py "flag");
                         (py "reject", py "reject");
                         (py "escalate", py "escalate") ] with
               | Some target => Ret target
               | None => Raise (KeyError answer)
               end;;
     Ret [target]).
Proof.
  unfold StateGraph.targets.
  cbn -[routing_decision StateGraph.lookup py].
  destruct (routing_decision state) as [answer|e]; cbn [bind]; [|reflexivity].
  match goal with |- context [StateGraph.lookup answer ?m] =>
    destruct (StateGraph.lookup answer m) end; reflexivity.
Qed.

Lemma targets_resolver (r : Resolver) (state : ModerationState) :
  StateGraph.targets (graph chain) (identifier r) state = Ret [StateGraph.END].
Proof. destruct r; reflexivity. Qed.

Lemma node_resolver (r : Resolver) :
  StateGraph.lookup (identifier r) (StateGraph.nodes (graph chain))
  = Some (resolver r).
Proof. destruct r; reflexivity. Qed.

Lemma invoke_traced_spec (c : pystr) :
  StateGraph.invoke_traced (builder chain) (input c) =
  match chain c (request c) with
  | Ret response =>
      (Ret (final_state c response),
       [py "analyse_content"; py "classify_severity";
        identifier (action_for (SeverityClassification.severity response))])
  | Raise e => (Raise e, [py "analyse_content"; py "classify_severity"])
  end.
Proof.
  unfold StateGraph.invoke_traced, builder, StateGraph.compile.
  cbn [StateGraph.graph_of StateGraph.recursion_limit].
  unfold StateGraph.then_ at 1, StateGraph.lift at 1.
  rewrite targets_start.
  rewrite steps_single by reflexivity.
  change (StateGraph.lookup (py "analyse_content") (StateGraph.nodes (graph chain)))
    with (Some analyse_content).
  cbv beta iota.
  rewrite analyse_content_input, targets_analyse_content.
  change (StateGraph.update (input c) (only_metadata (analysed c)))
    with (mkState (Some c) None None None (Some (Some (analysed c)))).
  rewrite steps_single by reflexivity.
  change (StateGraph.lookup (py "classify_severity") (StateGraph.nodes (graph chain)))
    with (Some (classify_severity chain)).
  cbv beta iota.
  unfold classify_severity at 1.
  cbn [content metadata getitem bind get_default]; fold (request c).
  destruct (chain c (request c)) as [[sev expl]|e];
    cbn [bind]; [|reflexivity].
  rewrite targets_classify_severity.
  destruct sev; unfold final_state;
    cbn [action_for SeverityClassification.severity
         SeverityClassification.explanation head tail identifier];
    rewrite ?app_nil_r; reflexivity.
Qed.

End Pipeline.

(* ================================================================= *)
(** ** The Router, [routing_decision] *)

(** The four labels, and they alone, validate. *)
Lemma validate_label (l : SeverityClassification.Literal) :
  SeverityClassification.validate (SeverityClassification.label l) = Some l.
Proof. destruct l; reflexivity. Qed.

Lemma validate_some (s : pystr) (l : SeverityClassification.Literal) :
  SeverityClassification.validate s = Some l ->
  s = SeverityClassification.label l.
Proof.
  unfold SeverityClassification.validate.
  repeat match goal with
         | |- context [PyStr.eqb s ?lit] =>
             destruct (eqb_spec s lit) as [->|_]; [intros [= <-]; reflexivity|]
         end.
  discriminate.
Qed.

Lemma action_for_injective (l l' : SeverityClassification.Literal) :
  identifier (action_for l) = identifier (action_for l') -> l = l'.
Proof. destruct l, l'; simpl; intros H; try reflexivity; discriminate H. Qed.

(** C1. On each of the four severities the Router answers with the action
    of the table (safe: approve, questionable: flag, inappropriate: reject,
    harmful: escalate), whatever else the state holds; the answer is one of
    the four action identifiers, and the conditional edges of the graph
    lead from it to the resolver of the same name. *)
Theorem routing_decision_labels (chain : Chain)
    (l : SeverityClassification.Literal)
    (c : option pystr) (a e : option (Optional pystr))
    (m : option (Optional pydict)) :
  let state := mkState c (Some (Some (SeverityClassification.label l))) a e m in
  routing_decision state = Ret (identifier (action_for l))
  /\ is_action (identifier (action_for l)) = true
  /\ StateGraph.targets (graph chain) (py "classify_severity") state
     = Ret [identifier (action_for l)]
  /\ (routing_decision state = Ret (py "approve") <-> l = SeverityClassification.safe)
  /\ (routing_decision state = Ret (py "flag") <-> l = SeverityClassification.questionable)
  /\ (routing_decision state = Ret (py "reject") <-> l = SeverityClassification.inappropriate)
  /\ (routing_decision state = Ret (py "escalate") <-> l = SeverityClassification.harmful).
Proof.
  intros state; subst state.
  split; [destruct l; reflexivity|].
  split; [destruct l; reflexivity|].
  split; [rewrite targets_classify_severity; destruct l; reflexivity|].
  repeat split; destruct l; intros H; try reflexivity; discriminate H.
Qed.

(** Any value of [severity] other than the four labels, [None] included,
    falls to the last branch of the Router. *)
Lemma routing_decision_unlisted (state : ModerationState) (v : Optional pystr) :
  severity state = Some v ->
  (forall l, v <> Some (SeverityClassification.label l)) ->
  routing_decision state = Ret (py "safe").
Proof.
  intros Hs Hv; unfold routing_decision; rewrite Hs; cbn [getitem bind].
  destruct v as [s|]; [|reflexivity]; unfold eq_literal.
  destruct (eqb_spec s (py "safe")) as [->|_];
    [elim (Hv SeverityClassification.safe); reflexivity|].
  destruct (eqb_spec s (py "questionable")) as [->|_];
    [elim (Hv SeverityClassification.questionable); reflexivity|].
  destruct (eqb_spec s (py "inappropriate")) as [->|_];
    [elim (Hv SeverityClassification.inappropriate); reflexivity|].
  destruct (eqb_spec s (py "harmful")) as [->|_];
    [elim (Hv SeverityClassification.harmful); reflexivity|].
  reflexivity.
Qed.

(** C2. What the Router does outside the four labels. With [severity]
    equal to [None], or to a string that is no label, it returns ["safe"]:
    not ["approve"], and not an action identifier at all, so that the
    conditional edges have no target for it and the graph raises
    [KeyError]. With no [severity] key in the state the Router itself
    raises [KeyError]. *)
Theorem routing_decision_fallback :
  routing_decision (mkState (Some (py "hello")) (Some None) None None None)
  = Ret (py "safe")
  /\ routing_decision
       (mkState (Some (py "hello")) (Some (Some (py "unknown"))) None None None)
     = Ret (py "safe")
  /\ py "safe" <> py "approve"
  /\ is_action (py "safe") = false
  /\ StateGraph.targets (graph timing_out) (py "classify_severity")
       (mkState (Some (py "hello")) (Some None) None None None)
     = Raise (KeyError (py "safe"))
  /\ routing_decision (input (py "hello")) = Raise (KeyError (py "severity")).
Proof. repeat split; discriminate. Qed.

(* ================================================================= *)
(** ** The Action Resolvers *)

(** What a resolver returns: its identifier under [action], and under
    [explanation] its fixed text around the explanation it was given. *)
Lemma resolver_returns (r : Resolver) (state : ModerationState) :
  resolver r state =
  Ret (mkState None None
         (Some (Some (identifier r)))
         (Some (Some (head r
                      ++ format (get_default (explanation state) (Some []))
                      ++ tail r)))
         None).
Proof.
  destruct r; cbn [resolver head tail identifier];
    [unfold approve; rewrite app_nil_r|unfold flag|unfold reject|unfold escalate];
    reflexivity.
Qed.

Lemma head_not_empty (r : Resolver) : head r <> [].
Proof. destruct r; discriminate. Qed.

(** C5. Each resolver, on every state, returns its own identifier under
    [action] and, under [explanation], its fixed text with the explanation
    of the state set into it as it is: the preamble of the resolver, the
    rationale, and the guidance that follows it (none for [approve]). The
    preamble is not empty, hence neither is the explanation, and the state
    updated with what the resolver returned holds both. *)
Theorem resolver_result (r : Resolver) (state : ModerationState) :
  exists text : pystr,
    resolver r state
    = Ret (mkState None None (Some (Some (identifier r))) (Some (Some text)) None)
    /\ action (StateGraph.update state
                 (mkState None None (Some (Some (identifier r)))
                    (Some (Some text)) None))
       = Some (Some (identifier r))
    /\ explanation (StateGraph.update state
                      (mkState None None (Some (Some (identifier r)))
                         (Some (Some text)) None))
       = Some (Some text)
    /\ text = head r ++ format (get_default (explanation state) (Some [])) ++ tail r
    /\ (forall rationale, explanation state = Some (Some rationale) ->
                          text = head r ++ rationale ++ tail r)
    /\ head r <> []
    /\ tail Approve = []
    /\ text <> [].
Proof.
  eexists; split; [apply resolver_returns|].
  repeat split.
  - intros rationale H; rewrite H; reflexivity.
  - apply head_not_empty.
  - intros H; apply app_eq_nil in H; destruct H as [H _].
    exact (head_not_empty r H).
Qed.

Lemma resolver_result_witness :
  exists text,
    flag (mkState (Some (py "hm")) (Some (Some (py "questionable"))) None
            (Some (Some (py "mild swearing"))) None)
    = Ret (mkState None None (Some (Some (py "flag"))) (Some (Some text)) None)
    /\ text = flag_head ++ py "mild swearing" ++ flag_tail.
Proof.
  destruct (resolver_result Flag
              (mkState (Some (py "hm")) (Some (Some (py "questionable"))) None
                 (Some (Some (py "mild swearing"))) None))
    as (text & Hret & _ & _ & _ & Hrat & _).
  exists text; split; [exact Hret|].
  apply (Hrat (py "mild swearing")); reflexivity.
Defined.

(** C8. Calling a resolver twice on the same state gives the same result
    both times: two calls in a row in one step of the run return the same
    dictionary, whatever has been called before. What a resolver returns is
    in fact decided by the [explanation] of the state alone. *)
Theorem resolver_twice (chain : Chain) (r : Resolver) (state : ModerationState)
    (called : list pystr) :
  (exists writes,
      resolver r state = Ret writes
      /\ fst (StateGraph.call_all (graph chain) state
                [identifier r; identifier r] called)
         = Ret [writes; writes])
  /\ (forall other, explanation other = explanation state ->
                    resolver r other = resolver r state).
Proof.
  split.
  - eexists; split; [apply resolver_returns|].
    cbv beta iota delta [StateGraph.call_all StateGraph.then_ StateGraph.call
                           StateGraph.calling StateGraph.lift StateGraph.ret].
    rewrite node_resolver, resolver_returns; reflexivity.
  - intros other H; rewrite !resolver_returns, H; reflexivity.
Qed.

Lemma resolver_twice_witness :
  reject (mkState (Some (py "a")) None None (Some (Some (py "spam"))) None)
  = reject (mkState (Some (py "b")) (Some (Some (py "inappropriate"))) None
              (Some (Some (py "spam"))) (Some (Some error_metadata))).
Proof.
  exact (proj2 (resolver_twice timing_out Reject
                  (mkState (Some (py "b")) (Some (Some (py "inappropriate")))
                     None (Some (Some (py "spam"))) (Some (Some error_metadata)))
                  [])
           (mkState (Some (py "a")) None None (Some (Some (py "spam"))) None)
           eq_refl).
Defined.

(** C9. What a resolver does when there is no explanation. No resolver
    raises, on any state. When the key [explanation] is missing, the
    default of [state.get] puts the empty text in the place of the
    rationale. When the key is there with the value [None], the absent
    value of [Optional[str]], the default is not used and the f-string
    writes the text ["None"] into the explanation: the result is not the
    one with the empty rationale. *)
Theorem resolver_explanation_none (r : Resolver)
    (c : option pystr) (s a : option (Optional pystr))
    (m : option (Optional pydict)) :
  resolver r (mkState c s a None m)
  = Ret (mkState None None (Some (Some (identifier r)))
           (Some (Some (head r ++ [] ++ tail r))) None)
  /\ resolver r (mkState c s a (Some None) m)
     = Ret (mkState None None (Some (Some (identifier r)))
              (Some (Some (head r ++ py "None" ++ tail r))) None)
  /\ resolver r (mkState c s a (Some None) m)
     <> resolver r (mkState c s a None m)
  /\ approve (mkState (Some (py "hi")) (Some (Some (py "safe"))) None
                (Some None) None)
     = Ret (mkState None None (Some (Some (py "approve")))
              (Some (Some (approve_head ++ py "None"))) None)
  /\ (forall state e, resolver r state <> Raise e).
Proof.
  split; [rewrite resolver_returns; reflexivity|].
  split; [rewrite resolver_returns; reflexivity|].
  split; [|split; [reflexivity|]].
  - rewrite !resolver_returns; cbn [explanation get_default format].
    intros H; injection H as H.
    apply app_inv_head in H.
    apply (@app_inv_tail _ (tail r) (py "None") []) in H; discriminate H.
  - intros state e; rewrite resolver_returns; discriminate.
Qed.

(* ================================================================= *)
(** ** What each stage writes *)

Lemma classify_severity_returns (chain : Chain) (state writes : ModerationState) :
  classify_severity chain state = Ret writes ->
  exists l rationale,
    writes = mkState None (Some (Some (SeverityClassification.label l))) None
               (Some (Some rationale)) None.
Proof.
  unfold classify_severity.
  destruct (content state) as [c|]; cbn [getitem bind]; [|discriminate].
  destruct (chain c _) as [[l rationale]|e]; cbn [bind]; [|discriminate].
  intros [= <-]; exists l, rationale; reflexivity.
Qed.

Lemma analyse_content_returns (state writes : ModerationState) :
  analyse_content state = Ret writes -> exists m, writes = only_metadata m.
Proof.
  unfold analyse_content.
  destruct (content state) as [c|]; cbn [getitem bind]; [|discriminate].
  destruct (falsy c || (len (strip c) =? 0)%Z);
    intros [= <-]; eexists; reflexivity.
Qed.

(** C10. The dictionary a stage returns holds its own keys only:
    [metadata] for the Preprocessor, [severity] and [explanation] for the
    Classifier, [action] and [explanation] for a resolver. Hence the state
    updated with it keeps every other field: the Preprocessor leaves
    [content], [severity], [action] and [explanation] as they were, the
    Classifier [content], [action] and [metadata], a resolver [content],
    [severity] and [metadata]. At the end of an invocation [content] is the
    submitted text and [metadata] is what the Preprocessor left. *)
Theorem stages_frame (chain : Chain) (state writes : ModerationState) :
  let state' := StateGraph.update state writes in
  (analyse_content state = Ret writes ->
     keys writes = [py "metadata"]
     /\ content state' = content state /\ severity state' = severity state
     /\ action state' = action state /\ explanation state' = explanation state)
  /\ (classify_severity chain state = Ret writes ->
     keys writes = [py "severity"; py "explanation"]
     /\ content state' = content state /\ action state' = action state
     /\ metadata state' = metadata state)
  /\ (forall r, resolver r state = Ret writes ->
     keys writes = [py "action"; py "explanation"]
     /\ content state' = content state /\ severity state' = severity state
     /\ metadata state' = metadata state)
  /\ (forall c final,
        StateGraph.invoke (builder chain) (input c) = Ret final ->
        content final = Some c /\ metadata final = Some (Some (analysed c))).
Proof.
  intros state'; subst state'; repeat apply conj.
  - intros H; apply analyse_content_returns in H; destruct H as [m ->].
    repeat split.
  - intros H; apply classify_severity_returns in H.
    destruct H as (l & rationale & ->); repeat split.
  - intros r H; rewrite resolver_returns in H; injection H as <-.
    repeat split.
  - intros c final; unfold StateGraph.invoke; rewrite invoke_traced_spec.
    destruct (chain c (request c)) as [response|e]; cbn [fst];
      [|discriminate].
    intros [= <-]; split; reflexivity.
Qed.

Lemma stages_frame_witness :
  keys (mkState None None None None
          (Some (Some [(py "error", VStr (py "Content is empty"))])))
  = [py "metadata"]
  /\ content (StateGraph.update (input (py " "))
                (mkState None None None None
                   (Some (Some [(py "error", VStr (py "Content is empty"))]))))
     = Some (py " ").
Proof.
  destruct (stages_frame timing_out (input (py " "))
              (mkState None None None None
                 (Some (Some [(py "error", VStr (py "Content is empty"))]))))
    as [H _].
  destruct (H eq_refl) as (Hkeys & Hcontent & _).
  split; [exact Hkeys|exact Hcontent].
Defined.

(* ================================================================= *)
(** ** One invocation, end to end *)

Lemma identifier_not_stage (r : Resolver) :
  identifier r <> py "analyse_content" /\ identifier r <> py "classify_severity".
Proof. destruct r; split; discriminate. Qed.

(** C6, as the code has it. An invocation calls the Preprocessor, then the
    Classifier. When the model answers with a classification, the Router
    then sends the run to exactly one resolver, the one of the severity
    returned, and the invocation ends with the final state; when the call
    of the model raises, the invocation ends with that exception after the
    Classifier and no resolver runs. In both cases no node is called
    twice, and the only node called after the Classifier is a resolver. *)
Theorem invocation_sequence (chain : Chain) (c : pystr) :
  (forall response, chain c (request c) = Ret response ->
     StateGraph.invoke_traced (builder chain) (input c)
     = (Ret (final_state c response),
        [py "analyse_content"; py "classify_severity";
         identifier (action_for (SeverityClassification.severity response))])
     /\ runs_whole_sequence chain c)
  /\ (forall e, chain c (request c) = Raise e ->
     StateGraph.invoke_traced (builder chain) (input c)
     = (Raise e, [py "analyse_content"; py "classify_severity"]))
  /\ NoDup (called_nodes chain c)
  /\ (exists rest,
        called_nodes chain c
        = [py "analyse_content"; py "classify_severity"] ++ rest
        /\ (rest = [] \/ exists r, rest = [identifier r])).
Proof.
  unfold runs_whole_sequence, called_nodes.
  rewrite invoke_traced_spec.
  destruct (chain c (request c)) as [response|e]; cbn [snd].
  - split; [intros ? [= <-]; split; [reflexivity|eexists; reflexivity]|].
    split; [discriminate|].
    split.
    + destruct (identifier_not_stage
                  (action_for (SeverityClassification.severity response)))
        as [H1 H2].
      repeat constructor; simpl; intuition (try discriminate; congruence).
    + eexists; split; [reflexivity|right; eexists; reflexivity].
  - split; [discriminate|].
    split; [intros ? [= <-]; reflexivity|].
    split.
    + repeat constructor; simpl; intuition discriminate.
    + exists []; split; [reflexivity|left; reflexivity].
Qed.

Lemma invocation_sequence_witness :
  called_nodes
    (answering SeverityClassification.harmful (py "a threat")) (py "pay or else")
  = [py "analyse_content"; py "classify_severity"; py "escalate"]
  /\ called_nodes timing_out (py "pay or else")
     = [py "analyse_content"; py "classify_severity"].
Proof.
  split.
  - destruct (invocation_sequence
                (answering SeverityClassification.harmful (py "a threat"))
                (py "pay or else")) as [H _].
    destruct (H _ eq_refl) as [Hrun _].
    unfold called_nodes; rewrite Hrun; reflexivity.
  - destruct (invocation_sequence timing_out (py "pay or else")) as (_ & H & _).
    unfold called_nodes; rewrite (H _ eq_refl); reflexivity.
Defined.

(** C6, as the claim has it, fails: when the call of the model times out
    the invocation stops after the Classifier, and no resolver has run. *)
Lemma whole_sequence_not_always :
  ~ runs_whole_sequence timing_out (py "hello").
Proof.
  unfold runs_whole_sequence, called_nodes.
  rewrite invoke_traced_spec; cbn [timing_out snd].
  intros [r H]; discriminate H.
Qed.

(** C7. When the call of the model raises (an error of the client, a
    timeout, a response that is no valid classification), [run_moderation]
    returns the dictionary whose only key is [error], with the text of the
    exception: no [severity], no [action]. When the model answers,
    [run_moderation] returns the final state: its [severity] is the label
    returned, its [action] the action of that severity, one of the four,
    and its [explanation] the text of the resolver of that severity around
    the rationale returned; there is no [error] key in it.

    For the chain of [main.py], the model behind the validation of its
    structured output, this reads: an exception of the model, and an
    answer whose severity is none of the four labels, both give the error
    dictionary, the second with the text of the validation error; an
    answer with one of the four labels gives the final state of that
    label. *)
Theorem run_moderation_outcome (chain : Chain) (c : pystr) :
  (forall e, chain c (request c) = Raise e ->
     run_moderation chain c = Error (exn_str e)
     /\ outcome_keys (run_moderation chain c) = [py "error"]
     /\ has_key "error" (run_moderation chain c) = true
     /\ has_key "severity" (run_moderation chain c) = false
     /\ has_key "action" (run_moderation chain c) = false)
  /\ (forall response, chain c (request c) = Ret response ->
     let l := SeverityClassification.severity response in
     exists final,
       run_moderation chain c = Final final
       /\ severity final = Some (Some (SeverityClassification.label l))
       /\ action final = Some (Some (identifier (action_for l)))
       /\ is_action (identifier (action_for l)) = true
       /\ explanation final
          = Some (Some (head (action_for l)
                        ++ SeverityClassification.explanation response
                        ++ tail (action_for l)))
       /\ has_key "severity" (run_moderation chain c) = true
       /\ has_key "action" (run_moderation chain c) = true
       /\ has_key "explanation" (run_moderation chain c) = true
       /\ has_key "error" (run_moderation chain c) = false)
  /\ (forall (validation_error : pystr -> exn)
             (model : pystr -> pystr -> result (pystr * pystr)),
        let checked := with_structured_output validation_error model in
        (forall e, model c (request c) = Raise e ->
           run_moderation checked c = Error (exn_str e)
           /\ outcome_keys (run_moderation checked c) = [py "error"]
           /\ has_key "severity" (run_moderation checked c) = false
           /\ has_key "action" (run_moderation checked c) = false)
        /\ (forall label rationale,
              model c (request c) = Ret (label, rationale) ->
              (forall l, label <> SeverityClassification.label l) ->
              run_moderation checked c = Error (exn_str (validation_error label))
              /\ outcome_keys (run_moderation checked c) = [py "error"]
              /\ has_key "error" (run_moderation checked c) = true
              /\ has_key "severity" (run_moderation checked c) = false
              /\ has_key "action" (run_moderation checked c) = false)
        /\ (forall l rationale,
              model c (request c)
              = Ret (SeverityClassification.label l, rationale) ->
              run_moderation checked c
              = Final (final_state c (SeverityClassification.make l rationale))
              /\ has_key "severity" (run_moderation checked c) = true
              /\ has_key "action" (run_moderation checked c) = true
              /\ has_key "error" (run_moderation checked c) = false)).
Proof.
  assert (Hraise : forall (ch : Chain) e,
             ch c (request c) = Raise e -> run_moderation ch c = Error (exn_str e)).
  { intros ch e H; unfold run_moderation, StateGraph.invoke; fold (input c).
    rewrite invoke_traced_spec, H; reflexivity. }
  assert (Hret : forall (ch : Chain) response,
             ch c (request c) = Ret response ->
             run_moderation ch c = Final (final_state c response)).
  { intros ch response H; unfold run_moderation, StateGraph.invoke; fold (input c).
    rewrite invoke_traced_spec, H; reflexivity. }
  split; [|split].
  - intros e H; rewrite (Hraise chain e H); repeat split.
  - intros response H l; subst l; rewrite (Hret chain response H).
    exists (final_state c response).
    repeat split; destruct (SeverityClassification.severity response);
      reflexivity.
  - intros validation_error model checked; subst checked.
    split; [|split].
    + intros e H.
      rewrite (Hraise (with_structured_output validation_error model) e);
        [repeat split|].
      unfold with_structured_output; rewrite H; reflexivity.
    + intros label rationale H Hout.
      assert (Hv : SeverityClassification.validate label = None).
      { destruct (SeverityClassification.validate label) as [l|] eqn:V;
          [|reflexivity].
        elim (Hout l); apply validate_some; exact V. }
      rewrite (Hraise (with_structured_output validation_error model)
                 (validation_error label));
        [repeat split|].
      unfold with_structured_output; rewrite H; cbn [bind fst].
      rewrite Hv; reflexivity.
    + intros l rationale H.
      rewrite (Hret (with_structured_output validation_error model)
                 (SeverityClassification.make l rationale));
        [repeat split|].
      unfold with_structured_output; rewrite H; cbn [bind fst snd].
      rewrite validate_label; reflexivity.
Qed.

Lemma run_moderation_outcome_witness :
  run_moderation timing_out (py "I love sunny days!")
  = Error (py "Request timed out.")
  /\ (exists final,
        run_moderation (answering SeverityClassification.safe (py "harmless"))
          (py "I love sunny days!") = Final final
        /\ action final = Some (Some (py "approve"))
        /\ explanation final = Some (Some (approve_head ++ py "harmless" ++ [])))
  /\ run_moderation
       (with_structured_output (fun label => Raised (py "ValidationError") label)
          (fun _ _ => Ret (py "spam", py "It is spam.")))
       (py "buy now")
     = Error (py "spam")
  /\ run_moderation
       (with_structured_output (fun label => Raised (py "ValidationError") label)
          (fun _ _ => Ret (py "harmful", py "A threat.")))
       (py "pay or else")
     = Final (final_state (py "pay or else")
                (SeverityClassification.make SeverityClassification.harmful
                   (py "A threat."))).
Proof.
  split; [|split; [|split]].
  - destruct (run_moderation_outcome timing_out (py "I love sunny days!"))
      as [H _].
    exact (proj1 (H _ eq_refl)).
  - destruct (run_moderation_outcome
                (answering SeverityClassification.safe (py "harmless"))
                (py "I love sunny days!")) as (_ & H & _).
    destruct (H _ eq_refl) as (final & Hrun & _ & Haction & _ & Hexpl & _).
    exists final; split; [exact Hrun|]; split; [exact Haction|exact Hexpl].
  - destruct (run_moderation_outcome timing_out (py "buy now")) as (_ & _ & H).
    destruct (H (fun label => Raised (py "ValidationError") label)
                (fun _ _ => Ret (py "spam", py "It is spam.")))
      as (_ & Hout & _).
    refine (proj1 (Hout (py "spam") (py "It is spam.") eq_refl _)).
    intros l; destruct l; discriminate.
  - destruct (run_moderation_outcome timing_out (py "pay or else"))
      as (_ & _ & H).
    destruct (H (fun label => Raised (py "ValidationError") label)
                (fun _ _ => Ret (py "harmful", py "A threat.")))
      as (_ & _ & Hin).
    exact (proj1 (Hin SeverityClassification.harmful (py "A threat.") eq_refl)).
Defined.

(** The limit of 25 steps is never met: an invocation of this graph raises
    only what the model call raised. *)
Lemma invocation_within_limit (chain : Chain) (c : pystr) (e : exn) :
  StateGraph.invoke (builder chain) (input c) = Raise e ->
  chain c (request c) = Raise e.
Proof.
  unfold StateGraph.invoke; rewrite invoke_traced_spec.
  destruct (chain c (request c)); cbn [fst]; [discriminate|].
  intros [= ->]; reflexivity.
Qed.

(* ================================================================= *)
(** ** The scenarios of the specification, run *)

Example scenario_sunny_days :
  run_moderation (answering SeverityClassification.safe (py "Friendly remark."))
    (py "I love sunny days!")
  = Final (mkState (Some (py "I love sunny days!"))
             (Some (Some (py "safe")))
             (Some (Some (py "approve")))
             (Some (Some (approve_head ++ py "Friendly remark.")))
             (Some (Some [ (py "content_length", VInt 18);
                           (py "word_count", VInt 4);
                           (py "has_urls", VBool false) ]))).
Proof. reflexivity. Qed.

Example scenario_empty_content :
  exists final,
    run_moderation (answering SeverityClassification.safe (py "Nothing there."))
      [] = Final final
    /\ metadata final = Some (Some [(py "error", VStr (py "Content is empty"))]).
Proof. eexists; split; reflexivity. Qed.

Example scenario_scam_link :
  exists final,
    run_moderation (answering SeverityClassification.harmful (py "Scam and threat."))
      (py "send money to https://scam-site.example/free-money or else")
    = Final final
    /\ get (prior_metadata final) (py "has_urls") = Some (VBool true)
    /\ severity final = Some (Some (py "harmful"))
    /\ action final = Some (Some (py "escalate")).
Proof. eexists; repeat split; reflexivity. Qed.

Example scenario_label_outside_enumeration :
  let chain :=
    with_structured_output (fun label => Raised (py "ValidationError") label)
      (fun _ _ => Ret (py "spam", py "It is spam.")) in
  has_key "error" (run_moderation chain (py "buy now")) = true
  /\ has_key "severity" (run_moderation chain (py "buy now")) = false
  /\ has_key "action" (run_moderation chain (py "buy now")) = false.
Proof. repeat split. Qed.

Example scenario_timeout :
  run_moderation timing_out (py "anything") = Error (py "Request timed out.").
Proof. reflexivity. Qed.

(* ================================================================= *)
(** ** More on the Preprocessor *)

Section Measures.

Lemma token_starts_bound (s : pystr) :
  2 * count_token_starts true s <= List.length s + 1
  /\ 2 * count_token_starts false s <= List.length s.
Proof.
  induction s as [|c s [IHt IHf]]; cbn [count_token_starts List.length].
  - lia.
  - destruct (isspace c); lia.
Qed.

Lemma token_starts_positive (s : pystr) :
  blank s = false -> 1 <= count_token_starts true s.
Proof.
  induction s as [|c s IH]; cbn [blank forallb count_token_starts].
  - discriminate.
  - destruct (isspace c); cbn [andb]; [exact IH|lia].
Qed.

(** Storing under a key the value it already has changes nothing. *)
Lemma set_same (d : pydict) (k : pystr) (v : pyvalue) :
  get d k = Some v -> set d k v = d.
Proof.
  induction d as [|[k0 v0] d IH]; cbn [get set]; [discriminate|].
  destruct (PyStr.eqb k0 k).
  - intros [= ->]; reflexivity.
  - intros H; rewrite (IH H); reflexivity.
Qed.

Lemma merge_measures_again (prior : pydict) (c : pystr) :
  merge (merge prior (measures c)) (measures c) = merge prior (measures c).
Proof.
  unfold merge, measures; cbn [fold_left fst snd].
  rewrite (@set_same _ (py "content_length"));
    [|rewrite !get_set_other by discriminate; apply get_set_same].
  rewrite (@set_same _ (py "word_count"));
    [|rewrite get_set_other by discriminate; apply get_set_same].
  apply set_same, get_set_same.
Qed.

Lemma analyse_content_in (state : ModerationState) (c : pystr) :
  content state = Some c ->
  analyse_content state = Ret (only_metadata (analysed_in state c)).
Proof.
  intros Hc; unfold analysed_in; destruct (blank c) eqn:Hb.
  - apply (@analyse_content_blank state c Hc Hb).
  - apply (@analyse_content_measures state c Hc Hb).
Qed.

End Measures.

(** X1. For a text that is not blank the Preprocessor stores a word count
    between 1 and the length of the text, and words need separators: twice
    the word count is at most the length plus one. *)
Theorem word_count_bounds (state : ModerationState) (c : pystr) :
  content state = Some c ->
  blank c = false ->
  exists (m : pydict) (words length : Z),
    analyse_content state = Ret (only_metadata m)
    /\ get m (py "word_count") = Some (VInt words)
    /\ get m (py "content_length") = Some (VInt length)
    /\ (1 <= words <= length)%Z
    /\ (2 * words <= length + 1)%Z.
Proof.
  intros Hc Hb.
  exists (analysed_in state c), (Z.of_nat (token_count c)), (len c).
  split; [apply analyse_content_in; exact Hc|].
  unfold analysed_in; rewrite Hb, !get_merge.
  split; [unfold measures; rewrite split_length; reflexivity|].
  split; [reflexivity|].
  pose proof (token_starts_bound c) as [Ht _].
  pose proof (token_starts_positive c Hb) as Hp.
  unfold token_count, len; lia.
Qed.

Lemma word_count_bounds_witness :
  exists m words length,
    analyse_content (input (py "a bc  d")) = Ret (only_metadata m)
    /\ get m (py "word_count") = Some (VInt words)
    /\ (2 * words <= length + 1)%Z.
Proof.
  destruct (@word_count_bounds (input (py "a bc  d")) (py "a bc  d")
              eq_refl eq_refl)
    as (m & words & length & Hret & Hw & _ & _ & Hbound).
  exists m, words, length; repeat split; assumption.
Defined.

(** X2. Running the Preprocessor again on the state it has updated changes
    nothing: it returns the same dictionary, and the state stays as it
    is. *)
Theorem analyse_content_idempotent (state : ModerationState) (c : pystr) :
  content state = Some c ->
  exists writes,
    analyse_content state = Ret writes
    /\ analyse_content (StateGraph.update state writes) = Ret writes
    /\ StateGraph.update (StateGraph.update state writes) writes
       = StateGraph.update state writes.
Proof.
  intros Hc; exists (only_metadata (analysed_in state c)).
  split; [apply analyse_content_in; exact Hc|].
  split; [|reflexivity].
  rewrite (@analyse_content_in _ c) by exact Hc.
  do 2 f_equal; unfold analysed_in; destruct (blank c); [reflexivity|].
  change (prior_metadata
            (StateGraph.update state
               (only_metadata (merge (prior_metadata state) (measures c)))))
    with (merge (prior_metadata state) (measures c)).
  apply merge_measures_again.
Qed.

Lemma analyse_content_idempotent_witness :
  exists writes,
    analyse_content
      (mkState (Some (py "two words")) None None None
         (Some (Some [(py "word_count", VInt 7); (py "source", VStr (py "api"))])))
    = Ret writes
    /\ metadata writes
       = Some (Some [ (py "word_count", VInt 2); (py "source", VStr (py "api"));
                      (py "content_length", VInt 9); (py "has_urls", VBool false) ]).
Proof.
  destruct (@analyse_content_idempotent
              (mkState (Some (py "two words")) None None None
                 (Some (Some [(py "word_count", VInt 7);
                              (py "source", VStr (py "api"))])))
              (py "two words") eq_refl)
    as (writes & Hret & _).
  exists writes; split; [exact Hret|].
  cbv in Hret; injection Hret as <-; reflexivity.
Defined.

(* ================================================================= *)
(** ** More on the Classifier and the Router *)

Section Listing.

Lemma analysed_in_not_empty (state : ModerationState) (c : pystr) :
  analysed_in state c <> [].
Proof.
  unfold analysed_in; destruct (blank c); [discriminate|].
  intros H.
  assert (Hget : get (merge (prior_metadata state) (measures c))
                     (py "content_length") = Some (VInt (len c)))
    by (rewrite get_merge; reflexivity).
  rewrite H in Hget; discriminate Hget.
Qed.

Lemma render_metadata_starts (m : pydict) :
  m <> [] -> exists more, render_metadata (Some m) = py "- " ++ more.
Proof.
  destruct m as [|kv [|kv' m]]; [congruence| |]; intros _;
    cbn [render_metadata List.map join]; eexists.
  - reflexivity.
  - rewrite <- app_assoc; reflexivity.
Qed.

Lemma classify_severity_asks (chain : Chain) (state : ModerationState)
    (c : pystr) (m : Optional pydict) :
  content state = Some c ->
  metadata state = Some m ->
  classify_severity chain state
  = (response <- chain c (render_metadata m);; Ret (classified response)).
Proof.
  intros Hc Hm; unfold classify_severity; rewrite Hc, Hm; reflexivity.
Qed.

End Listing.

(** X3. What reaches the model. After the Preprocessor has run on a state
    with a text, the Classifier calls the model with that text and a
    listing of the metadata that is never the marker ["No metadata
    available"]: it always starts with a line ["- key: value"]. For a blank
    text the listing is the single line of the error; for any other text
    of a state without metadata it is the three lines of the measures. *)
Theorem request_to_model (chain : Chain) (state : ModerationState) (c : pystr) :
  content state = Some c ->
  exists listing,
    (forall writes, analyse_content state = Ret writes ->
       classify_severity chain (StateGraph.update state writes)
       = (response <- chain c listing;; Ret (classified response)))
    /\ listing <> py "No metadata available"
    /\ (exists more, listing = py "- " ++ more)
    /\ (blank c = true -> listing = py "- error: Content is empty")
    /\ (blank c = false -> prior_metadata state = [] ->
        listing
        = join newline
            [ py "- content_length: " ++ str_of_int (len c);
              py "- word_count: " ++ str_of_int (Z.of_nat (token_count c));
              py "- has_urls: "
              ++ PyDict.str (VBool (contains (py "http://") c
                                    || contains (py "https://") c)) ]).
Proof.
  intros Hc; exists (render_metadata (Some (analysed_in state c))).
  destruct (render_metadata_starts (@analysed_in_not_empty state c))
    as [more Hmore].
  split.
  - intros writes Hw.
    rewrite (@analyse_content_in state c Hc) in Hw; injection Hw as <-.
    apply classify_severity_asks; [exact Hc|reflexivity].
  - split; [rewrite Hmore; discriminate|].
    split; [exists more; exact Hmore|].
    unfold analysed_in; split; intros Hb; rewrite Hb; [reflexivity|].
    intros ->; rewrite <- split_length; reflexivity.
Qed.

Lemma request_to_model_witness :
  exists listing,
    classify_severity timing_out
      (StateGraph.update (input (py "hi there"))
         (only_metadata (measures (py "hi there"))))
    = (response <- timing_out (py "hi there") listing;; Ret (classified response))
    /\ listing
       = py "- content_length: 8" ++ newline ++ py "- word_count: 2" ++ newline
         ++ py "- has_urls: False".
Proof.
  destruct (@request_to_model timing_out (input (py "hi there")) (py "hi there")
              eq_refl)
    as (listing & Hask & _ & _ & _ & Hlines).
  exists listing; split.
  - apply Hask; reflexivity.
  - rewrite (Hlines eq_refl eq_refl); reflexivity.
Defined.

Lemma routing_decision_label (state : ModerationState)
    (l : SeverityClassification.Literal) :
  severity state = Some (Some (SeverityClassification.label l)) ->
  routing_decision state = Ret (identifier (action_for l)).
Proof.
  intros H; unfold routing_decision; rewrite H; destruct l; reflexivity.
Qed.

(** X4. The Router on any state. Without the key [severity] it raises
    [KeyError]. With the key it returns, and its answer is one of the four
    action identifiers exactly when the severity is one of the four
    labels; any other severity, [None] included, gives ["safe"], for which
    the conditional edges of the graph have no target. *)
Theorem routing_decision_answers (chain : Chain) (state : ModerationState) :
  match severity state with
  | None => routing_decision state = Raise (KeyError (py "severity"))
  | Some v =>
      exists answer,
        routing_decision state = Ret answer
        /\ (is_action answer = true
            <-> exists l, v = Some (SeverityClassification.label l))
        /\ (is_action answer = false ->
            answer = py "safe"
            /\ StateGraph.targets (graph chain) (py "classify_severity") state
               = Raise (KeyError (py "safe")))
  end.
Proof.
  destruct (severity state) as [v|] eqn:Hs;
    [|unfold routing_decision; rewrite Hs; reflexivity].
  assert (Hcases : (exists l, v = Some (SeverityClassification.label l))
                   \/ (forall l, v <> Some (SeverityClassification.label l))).
  { destruct v as [s|]; [|right; discriminate].
    destruct (SeverityClassification.validate s) as [l|] eqn:Hv.
    - left; exists l; rewrite (validate_some s Hv); reflexivity.
    - right; intros l [= ->]; rewrite validate_label in Hv; discriminate. }
  destruct Hcases as [[l ->]|Hno].
  - exists (identifier (action_for l)).
    split; [apply routing_decision_label; exact Hs|].
    split; [split; [intros _; exists l; reflexivity|destruct l; reflexivity]|].
    destruct l; discriminate.
  - exists (py "safe").
    pose proof (routing_decision_unlisted state Hs Hno) as Hr.
    split; [exact Hr|].
    split; [split; [discriminate|intros [l ->]; elim (Hno l); reflexivity]|].
    intros _; split; [reflexivity|].
    rewrite targets_classify_severity, Hr; reflexivity.
Qed.

(** X5. On the four labels the Router is one to one and onto the four
    action identifiers: two states routed to the same action have the same
    severity, and every resolver is the target of some severity. *)
Theorem routing_decision_one_to_one :
  (forall state state' l l',
      severity state = Some (Some (SeverityClassification.label l)) ->
      severity state' = Some (Some (SeverityClassification.label l')) ->
      routing_decision state = routing_decision state' -> l = l')
  /\ (forall r, exists l, forall state,
        severity state = Some (Some (SeverityClassification.label l)) ->
        routing_decision state = Ret (identifier r)).
Proof.
  split.
  - intros state state' l l' Hs Hs' H.
    rewrite (routing_decision_label state l Hs),
      (routing_decision_label state' l' Hs') in H.
    apply action_for_injective; congruence.
  - intros r.
    exists (match r with
            | Approve => SeverityClassification.safe
            | Flag => SeverityClassification.questionable
            | Reject => SeverityClassification.inappropriate
            | Escalate => SeverityClassification.harmful
            end).
    intros state Hs; rewrite (routing_decision_label state _ Hs).
    destruct r; reflexivity.
Qed.

Lemma routing_decision_one_to_one_witness :
  routing_decision
    (mkState None (Some (Some (py "harmful"))) None None None)
  = Ret (py "escalate").
Proof.
  destruct routing_decision_one_to_one as [_ Honto].
  destruct (Honto Escalate) as [l Hl].
  destruct l;
    [pose proof (Hl (mkState None (Some (Some (py "safe"))) None None None)
                    eq_refl) as H; discriminate H
    |pose proof (Hl (mkState None (Some (Some (py "questionable"))) None None None)
                    eq_refl) as H; discriminate H
    |pose proof (Hl (mkState None (Some (Some (py "inappropriate"))) None None None)
                    eq_refl) as H; discriminate H
    |exact (Hl (mkState None (Some (Some (py "harmful"))) None None None) eq_refl)].
Defined.

(* ================================================================= *)
(** ** More on the invocation of the graph *)

Section AnyInput.

Variable chain : Chain.

(** The run from any input that holds a text. *)
Lemma invoke_traced_any (state : ModerationState) (c : pystr) :
  content state = Some c ->
  StateGraph.invoke_traced (builder chain) state =
  match chain c (render_metadata (Some (analysed_in state c))) with
  | Ret response =>
      (Ret (final_with c (analysed_in state c) response),
       [py "analyse_content"; py "classify_severity";
        identifier (action_for (SeverityClassification.severity response))])
  | Raise e => (Raise e, [py "analyse_content"; py "classify_severity"])
  end.
Proof.
  intros Hc.
  unfold StateGraph.invoke_traced, builder, StateGraph.compile.
  cbn [StateGraph.graph_of StateGraph.recursion_limit].
  unfold StateGraph.then_ at 1, StateGraph.lift at 1.
  rewrite targets_start.
  rewrite steps_single by reflexivity.
  change (StateGraph.lookup (py "analyse_content") (StateGraph.nodes (graph chain)))
    with (Some analyse_content).
  cbv beta iota.
  rewrite (analyse_content_in state Hc), targets_analyse_content.
  rewrite steps_single by reflexivity.
  change (StateGraph.lookup (py "classify_severity") (StateGraph.nodes (graph chain)))
    with (Some (classify_severity chain)).
  cbv beta iota.
  rewrite (@classify_severity_asks chain _ c (Some (analysed_in state c)))
    by (destruct state; cbn in Hc |- *; congruence).
  destruct (chain c (render_metadata (Some (analysed_in state c))))
    as [[sev expl]|e]; cbn [bind]; [|reflexivity].
  rewrite targets_classify_severity.
  destruct state as [sc ss sa se sm]; cbn [content] in Hc; subst sc.
  generalize (analysed_in (mkState (Some c) ss sa se sm) c); intros m.
  destruct sev; unfold final_with, classified;
    cbn [action_for SeverityClassification.severity
         SeverityClassification.explanation head tail identifier];
    rewrite ?app_nil_r; reflexivity.
Qed.

(** Without a text the run ends in the Preprocessor. *)
Lemma invoke_traced_no_content (state : ModerationState) :
  content state = None ->
  StateGraph.invoke_traced (builder chain) state
  = (Raise (KeyError (py "content")), [py "analyse_content"]).
Proof.
  intros Hc.
  unfold StateGraph.invoke_traced, builder, StateGraph.compile.
  cbn [StateGraph.graph_of StateGraph.recursion_limit].
  unfold StateGraph.then_ at 1, StateGraph.lift at 1.
  rewrite targets_start.
  rewrite steps_single by reflexivity.
  change (StateGraph.lookup (py "analyse_content") (StateGraph.nodes (graph chain)))
    with (Some analyse_content).
  cbv beta iota.
  unfold analyse_content; rewrite Hc; reflexivity.
Qed.

End AnyInput.

(** X6. Whatever [run_moderation] reports as an error comes from the call
    of the model: the graph itself never fails on a submitted text, neither
    by a missing key nor by the limit of steps. *)
Theorem run_moderation_error_origin (chain : Chain) (c message : pystr) :
  run_moderation chain c = Error message ->
  exists listing e,
    chain c listing = Raise e /\ message = exn_str e.
Proof.
  unfold run_moderation, StateGraph.invoke; fold (input c).
  rewrite (@invoke_traced_any chain (input c) c eq_refl).
  match goal with |- context [chain c ?l] =>
    destruct (chain c l) as [response|e] eqn:E; cbn [fst];
    [discriminate|intros [= <-]; exists l, e; split; [exact E|reflexivity]]
  end.
Qed.

Lemma run_moderation_error_origin_witness :
  exists listing e,
    timing_out (py "hello") listing = Raise e
    /\ py "Request timed out." = exn_str e.
Proof.
  exact (@run_moderation_error_origin timing_out (py "hello")
           (py "Request timed out.") eq_refl).
Defined.

(** X7. Invoked on an input without the key [content], the graph raises
    [KeyError('content')] in the Preprocessor: no other node is called,
    and the model is not asked. *)
Theorem invoke_without_content (chain : Chain) (state : ModerationState) :
  content state = None ->
  StateGraph.invoke (builder chain) state = Raise (KeyError (py "content"))
  /\ snd (StateGraph.invoke_traced (builder chain) state) = [py "analyse_content"]
  /\ StateGraph.invoke (builder chain) state
     = StateGraph.invoke (builder timing_out) state.
Proof.
  intros Hc; unfold StateGraph.invoke.
  rewrite !invoke_traced_no_content by exact Hc.
  repeat split.
Qed.

Lemma invoke_without_content_witness :
  StateGraph.invoke
    (builder (answering SeverityClassification.safe (py "fine")))
    (mkState None None None None (Some (Some error_metadata)))
  = Raise (KeyError (py "content")).
Proof.
  apply (@invoke_without_content
           (answering SeverityClassification.safe (py "fine"))
           (mkState None None None None (Some (Some error_metadata)))
           eq_refl).
Defined.

(** X8. What an invocation makes of any input that holds a text: the model
    was asked with that text and the listing of the metadata the
    Preprocessor left, and the result keeps the text, takes severity and
    rationale from the answer of the model, and the action and explanation
    from the resolver of that severity. Values the input already had under [severity], [action] or
    [explanation] do not show in the result; metadata the input had stay
    under their keys, next to the three measures, unless the text is
    blank. *)
Theorem invoke_any_input (chain : Chain) (state final : ModerationState)
    (c : pystr) :
  content state = Some c ->
  StateGraph.invoke (builder chain) state = Ret final ->
  exists response m,
    chain c (render_metadata (Some m)) = Ret response
    /\ final = final_with c m response
    /\ (blank c = true -> m = error_metadata)
    /\ (blank c = false ->
        forall k, k <> py "content_length" -> k <> py "word_count" ->
                  k <> py "has_urls" ->
                  get m k = get (prior_metadata state) k)
    /\ forall other,
         content other = Some c ->
         metadata other = metadata state ->
         StateGraph.invoke (builder chain) other = Ret final.
Proof.
  intros Hc; unfold StateGraph.invoke.
  rewrite (@invoke_traced_any chain state c Hc).
  destruct (chain c (render_metadata (Some (analysed_in state c))))
    as [response|e] eqn:E; cbn [fst]; [|discriminate].
  intros [= <-]; exists response, (analysed_in state c).
  split; [exact E|].
  split; [reflexivity|].
  split; [unfold analysed_in; intros ->; reflexivity|].
  split.
  - intros Hb k H1 H2 H3; unfold analysed_in; rewrite Hb, get_merge.
    cbn [measures rev app get].
    rewrite (eqb_neq (not_eq_sym H3)), (eqb_neq (not_eq_sym H2)),
      (eqb_neq (not_eq_sym H1)).
    reflexivity.
  - intros other Hco Hm.
    rewrite (@invoke_traced_any chain other c Hco).
    assert (Hsame : analysed_in other c = analysed_in state c)
      by (unfold analysed_in, prior_metadata; rewrite Hm; reflexivity).
    rewrite Hsame, E; reflexivity.
Qed.

Lemma invoke_any_input_witness :
  StateGraph.invoke
    (builder (answering SeverityClassification.safe (py "fine")))
    (mkState (Some (py "good day")) (Some (Some (py "harmful")))
       (Some (Some (py "escalate"))) (Some (Some (py "stale"))) None)
  = StateGraph.invoke
      (builder (answering SeverityClassification.safe (py "fine")))
      (input (py "good day")).
Proof.
  destruct (@invoke_any_input
              (answering SeverityClassification.safe (py "fine"))
              (input (py "good day"))
              (final_with (py "good day") (measures (py "good day"))
                 (SeverityClassification.make SeverityClassification.safe
                    (py "fine")))
              (py "good day") eq_refl eq_refl)
    as (response & m & _ & _ & _ & _ & Hother).
  rewrite (Hother (mkState (Some (py "good day")) (Some (Some (py "harmful")))
                     (Some (Some (py "escalate"))) (Some (Some (py "stale")))
                     None) eq_refl eq_refl).
  reflexivity.
Defined.

(** X9. A blank text is classified like any other: the model is asked with
    the listing of the error, and the invocation ends in the resolver of
    the severity it answers, with the error as the only metadata. *)
Theorem blank_content_is_classified (chain : Chain) (c : pystr)
    (response : SeverityClassification.t) :
  blank c = true ->
  chain c (py "- error: Content is empty") = Ret response ->
  run_moderation chain c = Final (final_with c error_metadata response)
  /\ called_nodes chain c
     = [py "analyse_content"; py "classify_severity";
        identifier (action_for (SeverityClassification.severity response))].
Proof.
  intros Hb Hr; unfold run_moderation, called_nodes, StateGraph.invoke.
  fold (input c).
  rewrite (@invoke_traced_any chain (input c) c eq_refl).
  unfold analysed_in; rewrite Hb.
  change (render_metadata (Some error_metadata))
    with (py "- error: Content is empty").
  rewrite Hr; split; reflexivity.
Qed.

Lemma blank_content_is_classified_witness :
  run_moderation (answering SeverityClassification.harmful (py "odd")) (py "  ")
  = Final (final_with (py "  ") error_metadata
             (SeverityClassification.make SeverityClassification.harmful (py "odd"))).
Proof.
  exact (proj1 (@blank_content_is_classified
                  (answering SeverityClassification.harmful (py "odd"))
                  (py "  ")
                  (SeverityClassification.make SeverityClassification.harmful
                     (py "odd"))
                  eq_refl eq_refl)).
Defined.

(* ================================================================= *)
(** ** More on the resolvers *)

Lemma head_first (r : Resolver) :
  exists rest, head r = (match r with
                         | Approve => 0x2705 | Flag => 0x26A0
                         | Reject => 0x274C | Escalate => 0x1F6A8
                         end)%N :: rest.
Proof. destruct r; eexists; reflexivity. Qed.

(** X10. The explanation a resolver writes tells which resolver wrote it
    and what the rationale was: two explanations are equal only if they
    come from the same resolver with the same rationale. *)
Theorem explanation_determines (r r' : Resolver) (rationale rationale' : pystr) :
  head r ++ rationale ++ tail r = head r' ++ rationale' ++ tail r' ->
  r = r' /\ rationale = rationale'.
Proof.
  intros H.
  assert (Hr : r = r').
  { destruct (head_first r) as [rest Hrest], (head_first r') as [rest' Hrest'].
    rewrite Hrest, Hrest' in H; cbn [app] in H.
    injection H as Hfirst _.
    destruct r, r'; (reflexivity || discriminate Hfirst). }
  subst r'; split; [reflexivity|].
  apply app_inv_head in H; apply app_inv_tail in H; exact H.
Qed.

Lemma explanation_determines_witness :
  Flag = Flag /\ py "mild" = py "mild".
Proof.
  exact (@explanation_determines Flag Flag (py "mild") (py "mild") eq_refl).
Defined.

(* ================================================================= *)
(** ** The page: one run of the script *)

Section PageFacts.

Variable upper : pystr -> pystr.
Variable chain : Chain.

Lemma show_message_effect (m : Message) (w : st.World) :
  show_message m w
  = (Ret tt, st.mkWorld (st.session w) (st.screen w ++ rendering m)).
Proof.
  unfold show_message, rendering.
  cbv beta iota delta [st.within st.then_ st.markdown st.show st.json_details
                         st.ret st.session st.screen].
  destruct (details m); cbn [app]; repeat rewrite <- app_assoc; reflexivity.
Qed.

Lemma for_each_show_message (l : list Message) (w : st.World) :
  st.for_each l show_message w
  = (Ret tt, st.mkWorld (st.session w) (st.screen w ++ flat_map rendering l)).
Proof.
  revert w; induction l as [|m l IH]; intros w; cbn [st.for_each flat_map].
  - rewrite app_nil_r; destruct w; reflexivity.
  - unfold st.then_; rewrite show_message_effect, IH.
    cbn [st.session st.screen]; rewrite <- app_assoc; reflexivity.
Qed.

Lemma run_moderation_final (c : pystr) (response : SeverityClassification.t) :
  chain c (request c) = Ret response ->
  run_moderation chain c = Final (final_state c response).
Proof.
  intros H; unfold run_moderation, StateGraph.invoke; fold (input c).
  rewrite invoke_traced_spec, H; reflexivity.
Qed.

Lemma run_moderation_error (c : pystr) (e : exn) :
  chain c (request c) = Raise e ->
  run_moderation chain c = Error (exn_str e).
Proof.
  intros H; unfold run_moderation, StateGraph.invoke; fold (input c).
  rewrite invoke_traced_spec, H; reflexivity.
Qed.

Lemma analysed_cons (c : pystr) : exists kv rest, analysed c = kv :: rest.
Proof. unfold analysed; destruct (blank c); eexists; eexists; reflexivity. Qed.

(** The script up to the chat input. *)
Lemma script_cleared (submitted : Optional pystr) (stored : Session) :
  script upper chain true submitted stored
  = (Raise st.rerun_exception,
     st.mkWorld (mkSession (Some []) (Some [])) page_top).
Proof. reflexivity. Qed.

Lemma script_idle_run (submitted : Optional pystr) (stored : Session) :
  submitted = None \/ submitted = Some [] ->
  script upper chain false submitted stored
  = (Ret tt,
     st.mkWorld
       (mkSession (Some (stored_messages stored)) (Some (stored_history stored)))
       (page_top ++ flat_map rendering (stored_messages stored)
        ++ [st.ChatInput (py "Enter your content here...")])).
Proof.
  intros Hs; unfold script, main.
  cbv beta iota delta [st.then_ st.set_page_config st.title st.markdown
    st.header st.button st.show st.within st.ret st.session st.screen
    initialize st.get_messages messages conversation_history st.chat_input].
  rewrite for_each_show_message.
  cbn [st.session st.screen app].
  destruct Hs as [->| ->]; reflexivity.
Qed.

End PageFacts.

Section PageSubmit.

Variable upper : pystr -> pystr.
Variable chain : Chain.
Variable stored : Session.
Variable c : char.
Variable rest : pystr.

Let prompt : pystr := c :: rest.

Lemma script_failed_run (e : exn) :
  chain prompt (request prompt) = Raise e ->
  script upper chain false (Some prompt) stored
  = (Ret tt,
     st.mkWorld
       (mkSession
          (Some (stored_messages stored ++ [mkMessage (py "user") (Some prompt) None]))
          (Some (stored_history stored)))
       (page_top ++ flat_map rendering (stored_messages stored)
        ++ [st.ChatInput (py "Enter your content here...")]
        ++ question_shown prompt ++ failure_shown e)).
Proof.
  intros He; unfold script, main.
  cbv beta iota delta [st.then_ st.set_page_config st.title st.markdown
    st.header st.button st.show st.within st.ret st.session st.screen
    initialize st.get_messages messages conversation_history st.chat_input].
  rewrite for_each_show_message.
  cbv beta iota delta [st.then_ st.show st.within st.ret st.session st.screen
    st.messages_append st.get_messages st.set_messages st.markdown
    messages conversation_history prompt].
  rewrite (run_moderation_error chain (c :: rest) He).
  cbv beta iota delta [st.then_ st.show st.ret st.session st.screen st.error
    has_key outcome_keys existsb result_error].
  rewrite eqb_refl.
  cbn [orb st.session st.screen app]; repeat rewrite <- app_assoc.
  reflexivity.
Qed.

Lemma script_answered_run (response : SeverityClassification.t) :
  chain prompt (request prompt) = Ret response ->
  script upper chain false (Some prompt) stored
  = (Ret tt,
     st.mkWorld
       (mkSession
          (Some (stored_messages stored
                 ++ [mkMessage (py "user") (Some prompt) None;
                     answer_message prompt response]))
          (Some (stored_history stored ++ [answer_record prompt response])))
       (page_top ++ flat_map rendering (stored_messages stored)
        ++ [st.ChatInput (py "Enter your content here...")]
        ++ question_shown prompt ++ answer_shown upper prompt response)).
Proof.
  intros Hr; unfold script, main.
  cbv beta iota delta [st.then_ st.set_page_config st.title st.markdown
    st.header st.button st.show st.within st.ret st.session st.screen
    initialize st.get_messages messages conversation_history st.chat_input].
  rewrite for_each_show_message.
  cbv beta iota delta [st.then_ st.show st.within st.ret st.session st.screen
    st.messages_append st.get_messages st.set_messages st.markdown
    messages conversation_history prompt].
  rewrite (run_moderation_final chain (c :: rest) Hr).
  change (has_key "error" (Final (final_state (c :: rest) response))) with false.
  cbv beta iota.
  unfold show_result, answer_shown, answer_message, answer_record.
  destruct (analysed_cons (c :: rest)) as (kv & more & Hm).
  destruct response as [sev expl]; destruct sev;
    cbv beta iota zeta delta [st.then_ st.show st.within st.ret st.session st.screen
      st.messages_append st.get_messages st.set_messages st.markdown
      st.conversation_history_append st.get_conversation_history
      st.set_conversation_history st.success st.warning st.error st.info
      st.metric st.columns st.write st.json call_upper
      messages conversation_history result_get get_default get_or_none
      final_state severity action explanation metadata status_widget
      action_for identifier eq_literal SeverityClassification.severity
      SeverityClassification.explanation];
    rewrite Hm;
    repeat match goal with
           | |- context [PyStr.eqb ?a ?b] =>
               let v := eval vm_compute in (PyStr.eqb a b) in
               change (PyStr.eqb a b) with v
           end;
    cbv beta iota; cbn [st.session st.screen app];
    repeat rewrite <- app_assoc; reflexivity.
Qed.

End PageSubmit.

Section PageRuns.

Variable upper : pystr -> pystr.

(** What one run of the script makes of the session, case by case. *)
Lemma session_after_cases (chain : Chain) (clicked : bool)
    (submitted : Optional pystr) (stored : Session) :
  let msgs := stored_messages stored in
  let hist := stored_history stored in
  let after := session_after upper chain clicked submitted stored in
  (clicked = true /\ after = mkSession (Some []) (Some []))
  \/ (clicked = false /\ (submitted = None \/ submitted = Some [])
      /\ after = mkSession (Some msgs) (Some hist))
  \/ (exists prompt e,
        clicked = false /\ submitted = Some prompt /\ prompt <> []
        /\ chain prompt (request prompt) = Raise e
        /\ after = mkSession
                     (Some (msgs ++ [mkMessage (py "user") (Some prompt) None]))
                     (Some hist))
  \/ (exists prompt response,
        clicked = false /\ submitted = Some prompt /\ prompt <> []
        /\ chain prompt (request prompt) = Ret response
        /\ after = mkSession
                     (Some (msgs ++ [mkMessage (py "user") (Some prompt) None;
                                     answer_message prompt response]))
                     (Some (hist ++ [answer_record prompt response]))).
Proof.
  intros msgs hist after; subst msgs hist after; unfold session_after.
  destruct clicked.
  - left; rewrite script_cleared; split; reflexivity.
  - right.
    destruct submitted as [[|c rest]|].
    + left; rewrite script_idle_run by (right; reflexivity); repeat split.
      right; reflexivity.
    + right.
      destruct (chain (c :: rest) (request (c :: rest))) as [response|e] eqn:E.
      * right; exists (c :: rest), response.
        rewrite (@script_answered_run upper chain stored c rest response E).
        repeat split; (discriminate || exact E).
      * left; exists (c :: rest), e.
        rewrite (@script_failed_run upper chain stored c rest e E).
        repeat split; (discriminate || exact E).
    + left; rewrite script_idle_run by (left; reflexivity); repeat split.
      left; reflexivity.
Qed.

Lemma answers_app (l l' : list Message) : answers (l ++ l') = answers l ++ answers l'.
Proof. apply flat_map_app. Qed.

Lemma consistent_after_run (chain : Chain) (clicked : bool)
    (submitted : Optional pystr) (stored : Session) :
  consistent stored ->
  consistent (session_after upper chain clicked submitted stored).
Proof.
  intros (Ha & Hr & Hn).
  destruct (session_after_cases chain clicked submitted stored)
    as [[_ ->]|[(_ & _ & ->)|[(p & e & _ & _ & _ & _ & ->)
                             |(p & response & _ & _ & _ & _ & ->)]]];
    unfold consistent, stored_messages, stored_history in *;
    cbn [messages conversation_history get_default].
  - repeat split; [constructor|reflexivity].
  - repeat split; assumption.
  - rewrite answers_app, flat_map_app, length_app.
    cbn [flat_map]; unfold answer_of, question_of; cbn [role body details].
    change (PyStr.eqb (py "user") (py "assistant")) with false.
    change (PyStr.eqb (py "user") (py "user")) with true.
    cbn [app List.length]; rewrite app_nil_r; unfold question_of in Hn.
    split; [exact Ha|]; split; [|lia].
    apply Forall_app; split; [exact Hr|].
    constructor; [left; reflexivity|constructor].
  - rewrite answers_app, map_app, flat_map_app, !length_app, Ha.
    cbn [flat_map List.map];
      unfold answer_of, question_of, answer_message, answer_record, recorded;
      cbn [role body details past_explanation past_severity past_action
           past_metadata].
    change (PyStr.eqb (py "user") (py "assistant")) with false.
    change (PyStr.eqb (py "user") (py "user")) with true.
    change (PyStr.eqb (py "assistant") (py "assistant")) with true.
    change (PyStr.eqb (py "assistant") (py "user")) with false.
    cbn [app List.length]; unfold question_of in Hn.
    split; [reflexivity|]; split; [|lia].
    apply Forall_app; split; [exact Hr|].
    constructor; [left; reflexivity|].
    constructor; [right; reflexivity|constructor].
Qed.

End PageRuns.

(** X11. The page after an answer. When a text is submitted and the model
    answers, the run of the script ends normally; the text and the answer
    are appended to the stored messages and one entry to the history, with
    the severity, the action, the explanation and the metadata of the
    result. The explanation is shown by [st.success] for a safe text, by
    [st.warning] for a questionable one and by [st.error] for an
    inappropriate and for a harmful one. *)
Theorem page_after_answer (upper : pystr -> pystr) (chain : Chain)
    (stored : Session) (prompt : pystr) (response : SeverityClassification.t) :
  prompt <> [] ->
  chain prompt (request prompt) = Ret response ->
  let run := script upper chain false (Some prompt) stored in
  let l := SeverityClassification.severity response in
  let text := head (action_for l) ++ SeverityClassification.explanation response
              ++ tail (action_for l) in
  fst run = Ret tt
  /\ messages (st.session (snd run))
     = Some (stored_messages stored
             ++ [ mkMessage (py "user") (Some prompt) None;
                  mkMessage (py "assistant") (Some text)
                    (Some (mkDetails (Some (SeverityClassification.label l))
                             (Some (identifier (action_for l)))
                             (Some (analysed prompt)))) ])
  /\ conversation_history (st.session (snd run))
     = Some (stored_history stored
             ++ [ mkModeration prompt (Some (SeverityClassification.label l))
                    (Some (identifier (action_for l))) (Some text)
                    (Some (analysed prompt)) ])
  /\ In (match l with
         | SeverityClassification.safe => st.Success (Some text)
         | SeverityClassification.questionable => st.Warning (Some text)
         | SeverityClassification.inappropriate => st.Failure (Some text)
         | SeverityClassification.harmful => st.Failure (Some text)
         end) (st.screen (snd run)).
Proof.
  intros Hp Hr run l text; subst run l text.
  destruct prompt as [|c rest]; [congruence|].
  rewrite (@script_answered_run upper chain stored c rest response Hr).
  cbn [fst snd st.session st.screen messages conversation_history].
  repeat split.
  rewrite !in_app_iff; do 4 right.
  destruct response as [[] expl]; cbn; tauto.
Qed.

Lemma page_after_answer_witness :
  conversation_history
    (st.session
       (snd (script ascii_upper
               (answering SeverityClassification.questionable (py "mild"))
               false (Some (py "hm")) (mkSession None None))))
  = Some [ mkModeration (py "hm") (Some (py "questionable")) (Some (py "flag"))
             (Some (flag_head ++ py "mild" ++ flag_tail))
             (Some (analysed (py "hm"))) ].
Proof.
  destruct (@page_after_answer ascii_upper
              (answering SeverityClassification.questionable (py "mild"))
              (mkSession None None) (py "hm")
              (SeverityClassification.make SeverityClassification.questionable
                 (py "mild")))
    as (_ & _ & H & _); [discriminate|reflexivity|].
  exact H.
Defined.

(** X12. The page after a failure. When a text is submitted and the call of
    the model raises, the run of the script still ends normally and shows
    ["Error: "] followed by the text of the exception; the text of the user
    is appended to the stored messages, without an answer, and the history
    stays as it was. *)
Theorem page_after_failure (upper : pystr -> pystr) (chain : Chain)
    (stored : Session) (prompt : pystr) (e : exn) :
  prompt <> [] ->
  chain prompt (request prompt) = Raise e ->
  let run := script upper chain false (Some prompt) stored in
  fst run = Ret tt
  /\ messages (st.session (snd run))
     = Some (stored_messages stored ++ [mkMessage (py "user") (Some prompt) None])
  /\ conversation_history (st.session (snd run)) = Some (stored_history stored)
  /\ In (st.Failure (Some (py "Error: " ++ exn_str e))) (st.screen (snd run)).
Proof.
  intros Hp He run; subst run.
  destruct prompt as [|c rest]; [congruence|].
  rewrite (@script_failed_run upper chain stored c rest e He).
  cbn [fst snd st.session st.screen messages conversation_history].
  repeat split.
  rewrite !in_app_iff; do 4 right; cbn; tauto.
Qed.

Lemma page_after_failure_witness :
  messages
    (st.session
       (snd (script ascii_upper timing_out false (Some (py "hm"))
               (mkSession (Some []) (Some [])))))
  = Some [mkMessage (py "user") (Some (py "hm")) None].
Proof.
  destruct (@page_after_failure ascii_upper timing_out
              (mkSession (Some []) (Some [])) (py "hm")
              (Raised (py "TimeoutError") (py "Request timed out.")))
    as (_ & H & _); [discriminate|reflexivity|].
  exact H.
Defined.

(** X13. A run of the script raises nothing of its own: whatever is stored,
    submitted or answered, it ends normally, unless the button was clicked,
    in which case it ends by the exception of [st.rerun()]. In particular
    no attribute of the session is read before it is set, and [upper] is
    never called on [None]. *)
Theorem script_ends (upper : pystr -> pystr) (chain : Chain) (clicked : bool)
    (submitted : Optional pystr) (stored : Session) :
  fst (script upper chain clicked submitted stored)
  = if clicked then Raise st.rerun_exception else Ret tt.
Proof.
  destruct clicked; [rewrite script_cleared; reflexivity|].
  destruct submitted as [[|c rest]|].
  - rewrite script_idle_run by (right; reflexivity); reflexivity.
  - destruct (chain (c :: rest) (request (c :: rest))) as [response|e] eqn:E.
    + rewrite (@script_answered_run upper chain stored c rest response E).
      reflexivity.
    + rewrite (@script_failed_run upper chain stored c rest e E); reflexivity.
  - rewrite script_idle_run by (left; reflexivity); reflexivity.
Qed.

(** X14. When the button [Clear Conversation] is clicked, the run empties
    the stored messages and the history and stops: it shows the top of the
    page only, none of the stored messages, and a text submitted in the
    same run is neither stored nor sent to the model. *)
Theorem clear_conversation (upper : pystr -> pystr) (chain : Chain)
    (submitted : Optional pystr) (stored : Session) :
  session_after upper chain true submitted stored = mkSession (Some []) (Some [])
  /\ st.screen (snd (script upper chain true submitted stored)) = page_top
  /\ script upper chain true submitted stored
     = script upper timing_out true None (mkSession None None).
Proof.
  unfold session_after; rewrite !script_cleared; repeat split.
Qed.

(** X15. A run without a click and without a submitted text shows the top
    of the page, every stored message in the order in which it was stored
    (its text, and its details when it is an answer), and the chat input;
    the session, once set up, is left as it is. *)
Theorem idle_run_redisplays (upper : pystr -> pystr) (chain : Chain)
    (msgs : list Message) (hist : list Moderation) :
  script upper chain false None (mkSession (Some msgs) (Some hist))
  = (Ret tt,
     st.mkWorld (mkSession (Some msgs) (Some hist))
       (page_top ++ flat_map rendering msgs
        ++ [st.ChatInput (py "Enter your content here...")]))
  /\ script upper chain false None (mkSession None None)
     = (Ret tt,
        st.mkWorld (mkSession (Some []) (Some []))
          (page_top ++ [st.ChatInput (py "Enter your content here...")])).
Proof.
  split; rewrite script_idle_run by (left; reflexivity); reflexivity.
Qed.

(** X16. Over any number of runs of the script, with any clicks, texts and
    answers of the model, a consistent session stays consistent: the
    history holds exactly the answers among the stored messages, in their
    order and with the same severity, action, explanation and metadata;
    every stored message is of the user or of the assistant; and no entry
    of the history is without a text of the user. A new session is
    consistent. *)
Theorem history_matches_answers (upper : pystr -> pystr)
    (runs : list (Chain * bool * Optional pystr)) (stored : Session) :
  consistent stored ->
  consistent (session_after_runs upper runs stored)
  /\ consistent (session_after_runs upper runs (mkSession None None)).
Proof.
  assert (H : forall s, consistent s -> consistent (session_after_runs upper runs s)).
  { induction runs as [|[[chain clicked] submitted] runs IH]; intros s Hs;
      cbn [session_after_runs]; [exact Hs|].
    apply IH, consistent_after_run; exact Hs. }
  intros Hs; split; [apply H; exact Hs|].
  apply H; repeat split; [constructor|reflexivity].
Qed.

Lemma history_matches_answers_witness :
  consistent
    (session_after_runs ascii_upper
       [ (answering SeverityClassification.safe (py "fine"), false, Some (py "hello"));
         (timing_out, false, Some (py "again"));
         (answering SeverityClassification.harmful (py "threat"), false,
          Some (py "or else")) ]
       (mkSession (Some []) (Some []))).
Proof.
  refine (proj1 (@history_matches_answers ascii_upper _ (mkSession (Some []) (Some [])) _)).
  repeat split; [constructor|reflexivity].
Defined.

Lemma rendering_no_info (l : list Message) (shown : Optional pystr) :
  ~ In (st.Info shown) (flat_map rendering l).
Proof.
  induction l as [|m l IH]; cbn [flat_map]; [intros []|].
  rewrite in_app_iff; intros [H|H]; [|exact (IH H)].
  unfold rendering in H; destruct (details m); cbn in H;
    repeat (destruct H as [H|H]; [discriminate H|]); exact H.
Qed.

(** X17. No run of the script ever calls [st.info]: the last branch of the
    display, and with it the defaults of [result.get], are never taken for
    what [run_moderation] returns. *)
Theorem info_never_shown (upper : pystr -> pystr) (chain : Chain)
    (clicked : bool) (submitted : Optional pystr) (stored : Session)
    (shown : Optional pystr) :
  ~ In (st.Info shown)
       (st.screen (snd (script upper chain clicked submitted stored))).
Proof.
  assert (Htop : ~ In (st.Info shown) page_top)
    by (cbn; intros H; repeat (destruct H as [H|H]; [discriminate H|]); exact H).
  pose proof (rendering_no_info (stored_messages stored) shown) as Hold.
  destruct clicked; [rewrite script_cleared; exact Htop|].
  assert (Hidle : forall tail_,
             ~ In (st.Info shown) tail_ ->
             ~ In (st.Info shown)
                  (page_top ++ flat_map rendering (stored_messages stored)
                   ++ [st.ChatInput (py "Enter your content here...")] ++ tail_)).
  { intros tail_ Ht; rewrite !in_app_iff; cbn [In].
    intros [H|[H|[[H|[]]|H]]]; [exact (Htop H)|exact (Hold H)|discriminate H
                                |exact (Ht H)]. }
  destruct submitted as [[|c rest]|].
  - rewrite script_idle_run by (right; reflexivity); cbn [snd st.screen].
    rewrite <- (app_nil_r [st.ChatInput _]); apply Hidle; intros [].
  - destruct (chain (c :: rest) (request (c :: rest))) as [response|e] eqn:E.
    + rewrite (@script_answered_run upper chain stored c rest response E).
      cbn [snd st.screen]; apply Hidle.
      destruct response as [[] expl]; cbn; intros H;
        repeat (destruct H as [H|H]; [discriminate H|]); exact H.
    + rewrite (@script_failed_run upper chain stored c rest e E).
      cbn [snd st.screen]; apply Hidle.
      cbn; intros H; repeat (destruct H as [H|H]; [discriminate H|]); exact H.
  - rewrite script_idle_run by (left; reflexivity); cbn [snd st.screen].
    rewrite <- (app_nil_r [st.ChatInput _]); apply Hidle; intros [].
Qed.
